(** * LedgerLens: receipt digitizer -- validation and reconciliation core

    A shallow embedding of the two Streamlit applications of the
    repository, [milestone-1/app1.py] and [milestone-2/app2.py]:
    the category classifier, the tolerant JSON extraction ([safe_json]),
    the amount coercion ([safe_float]), the upload (ingestion) path with its
    duplicate check, and the History-tab amount validation.

    Modelling conventions.
    - Amounts are modelled twice.  In the applications as a whole (upload,
      store, History tab) a Python [float] is an exact rational ([Q]) and
      equalities between amounts are stated with [==]; binary64 rounding,
      infinities and NaN are outside that model, which serves the
      properties that rounding does not decide.  The amount validation of
      the History tabs is modelled a second time on binary64 numbers
      ([Module B64], on the standard library's [SpecFloat]), with rounding,
      signed zeros, infinities and NaN, with integers apart from floats and
      with [OverflowError]; the formulas of the reconciliation, the
      inferred tax and the verdict are stated there.
    - A Python [str] is a [string] of 8-bit characters; [str.lower] acts on
      the ASCII letters.
    - Values decoded from JSON are the inductive [pyval]; a [dict] is an
      association list in insertion order (the decoder yields unique keys).
    - An exception is an explicit [Raise] result; [st.stop()] ends a run and
      is an explicit outcome.
    - The display calls ([st.table], [st.metric], [pd.DataFrame], charts)
      and the decoding of the uploaded image are not modelled, except that
      in [B64] the display of the line items, which can raise, is a
      parameter [show_table]; the MD5 digest of the uploaded bytes and the
      text answered by the extraction model are inputs.
    - Library calls that are not code of the repository ([json.loads],
      [float] on a string, [datetime.fromisoformat]) are parameters of the
      sections that use them; reference implementations for running the
      model are given in [Module PyLib]. *)

From Stdlib Require Import List String Ascii Bool Arith ZArith Lia.
From Stdlib Require Import QArith Qabs Qminmax Lqa.
From Stdlib Require Import PrimFloat SpecFloat FloatOps.
From Stdlib Require Import Sorted.
Import ListNotations.

Set Warnings "-register-all".

Local Open Scope string_scope.
Local Open Scope Q_scope.

(** ** Python values and exceptions *)

Inductive pyval : Type :=
| PNone
| PBool (b : bool)
| PNum (q : Q)
| PStr (s : string)
| PList (l : list pyval)
| PDict (d : list (string * pyval)).

(** [InterfaceError] and [IntegrityError] are the two failures of the
    sqlite3 driver that the upload path can meet: a parameter of an
    unsupported type, and a violated [UNIQUE] constraint.  [OverflowError]
    is raised by [float] on an integer that no float can hold. *)
Inductive exn : Type :=
| TypeError
| ValueError
| AttributeError
| InterfaceError
| IntegrityError
| OverflowError.

Inductive result (A : Type) : Type :=
| Ok (a : A)
| Raise (e : exn).

Arguments Ok {A} a.
Arguments Raise {A} e.

Definition bind {A B : Type} (r : result A) (k : A -> result B) : result B :=
  match r with
  | Ok a => k a
  | Raise e => Raise e
  end.

Notation "x <- r ;; k" := (bind r (fun x => k))
  (at level 61, r at next level, right associativity).

(** [try: e except: d] with a bare [except]. *)
Definition try_except {A : Type} (r : result A) (d : A) : A :=
  match r with
  | Ok a => a
  | Raise _ => d
  end.

(** ** Built-in operations used by the applications *)

Fixpoint assoc (k : string) (d : list (string * pyval)) : option pyval :=
  match d with
  | [] => None
  | (k', v) :: d' => if String.eqb k k' then Some v else assoc k d'
  end.

(** [o.get(k, dflt)]: only a [dict] has the method. *)
Definition py_get (o : pyval) (k : string) (dflt : pyval) : result pyval :=
  match o with
  | PDict d => Ok (match assoc k d with Some v => v | None => dflt end)
  | _ => Raise AttributeError
  end.

(** [o.values()] *)
Definition py_values (o : pyval) : result (list pyval) :=
  match o with
  | PDict d => Ok (map snd d)
  | _ => Raise AttributeError
  end.

(** [iter(o)]: a list yields its elements, a dict its keys, a string its
    characters; anything else is not iterable. *)
Definition py_iter (o : pyval) : result (list pyval) :=
  match o with
  | PList l => Ok l
  | PDict d => Ok (map (fun kv => PStr (fst kv)) d)
  | PStr s => Ok (map (fun c => PStr (String c EmptyString)) (list_ascii_of_string s))
  | _ => Raise TypeError
  end.

(** Truth value of an object, as tested by [if x:] and [not x]. *)
Definition truthy (o : pyval) : bool :=
  match o with
  | PNone => false
  | PBool b => b
  | PNum q => negb (Qeq_bool q 0)
  | PStr s => negb (String.eqb s EmptyString)
  | PList l => match l with [] => false | _ => true end
  | PDict d => match d with [] => false | _ => true end
  end.

Definition Qlt_bool (a b : Q) : bool := negb (Qle_bool b a).

(** [sum(f(i) for i in l)]: left to right from the integer 0; the first
    exception ends the evaluation. *)
Fixpoint sum_from (f : pyval -> result Q) (l : list pyval) (acc : Q) : result Q :=
  match l with
  | [] => Ok acc
  | x :: l' =>
      match f x with
      | Ok q => sum_from f l' (acc + q)
      | Raise e => Raise e
      end
  end.

Definition py_sum (f : pyval -> result Q) (l : list pyval) : result Q :=
  sum_from f l 0.

(** *** Strings *)

(** [str.lower()] on ASCII text. *)
Definition lower_ascii (c : ascii) : ascii :=
  let n := nat_of_ascii c in
  if (65 <=? n)%nat && (n <=? 90)%nat then ascii_of_nat (n + 32) else c.

Fixpoint lower (s : string) : string :=
  match s with
  | EmptyString => EmptyString
  | String c s' => String (lower_ascii c) (lower s')
  end.

(** [x in m] for strings: [x] occurs in [m] as a contiguous substring. *)
Fixpoint str_in (x m : string) : bool :=
  if prefix x m then true
  else match m with
       | EmptyString => false
       | String _ m' => str_in x m'
       end.

(** [any(x in m for x in kws)] *)
Definition any_in (kws : list string) (m : string) : bool :=
  existsb (fun x => str_in x m) kws.

(** Position of the first and of the last occurrence of a character. *)
Fixpoint find_char (c : ascii) (s : string) : option nat :=
  match s with
  | EmptyString => None
  | String a s' =>
      if Ascii.eqb a c then Some O
      else match find_char c s' with
           | Some i => Some (S i)
           | None => None
           end
  end.

Fixpoint rfind_char (c : ascii) (s : string) : option nat :=
  match s with
  | EmptyString => None
  | String a s' =>
      match rfind_char c s' with
      | Some i => Some (S i)
      | None => if Ascii.eqb a c then Some O else None
      end
  end.

(** [text.index(c)] and [text.rindex(c)] raise [ValueError] when [c] does not
    occur. *)
Definition str_index (text : string) (c : ascii) : result nat :=
  match find_char c text with
  | Some i => Ok i
  | None => Raise ValueError
  end.

Definition str_rindex (text : string) (c : ascii) : result nat :=
  match rfind_char c text with
  | Some i => Ok i
  | None => Raise ValueError
  end.

(** [text[start:end]] for non-negative bounds. *)
Definition slice (text : string) (start end_ : nat) : string :=
  substring start (end_ - start) text.

(** [merchant.lower()]: a method of [str] only. *)
Definition py_lower (o : pyval) : result string :=
  match o with
  | PStr s => Ok (lower s)
  | _ => Raise AttributeError
  end.

(** *** Calendar dates *)

(** A [datetime.date]. *)
Record date : Type := mkDate { year : N; month : N; day : N }.

Definition is_leap (y : N) : bool :=
  ((y mod 4 =? 0) && negb (y mod 100 =? 0) || (y mod 400 =? 0))%N.

Definition days_in_month (y m : N) : N :=
  (if m =? 2 then (if is_leap y then 29 else 28)
   else if (m =? 4) || (m =? 6) || (m =? 9) || (m =? 11) then 30
   else 31)%N.

(** The invariant of every [datetime.date] object. *)
Definition valid_date (d : date) : bool :=
  ((1 <=? year d) && (year d <=? 9999) &&
   (1 <=? month d) && (month d <=? 12) &&
   (1 <=? day d) && (day d <=? days_in_month (year d) (month d)))%N.

Definition digit (n : N) : ascii := ascii_of_N (48 + n mod 10).

(** [date.isoformat()]: ["%04d-%02d-%02d"]. *)
Definition isoformat (d : date) : string :=
  (String (digit (year d / 1000)) (String (digit (year d / 100))
    (String (digit (year d / 10)) (String (digit (year d))
      (String "-" (String (digit (month d / 10)) (String (digit (month d))
        (String "-" (String (digit (day d / 10)) (String (digit (day d))
          EmptyString))))))))))%N.

(** ** Data model *)

(** The labels returned by [classify_category]. *)
Inductive category : Type :=
| Groceries | Medical | Restaurant | Travel | Utilities | Other.

Definition category_name (c : category) : string :=
  match c with
  | Groceries => "Groceries"
  | Medical => "Medical"
  | Restaurant => "Restaurant"
  | Travel => "Travel"
  | Utilities => "Utilities"
  | Other => "Other"
  end.

(** A row of the table [receipts].  The columns [merchant], [date] and
    [currency] hold whatever value was bound to them; [raw_json] is the
    extracted payload (the text written by [json.dumps] and read back by
    [json.loads] is not modelled). *)
Record receipt : Type := mkReceipt {
  id : Z;
  merchant : pyval;
  date_col : pyval;
  total : Q;
  currency : pyval;
  category_col : category;
  raw_json : pyval;
  file_hash : string
}.

(** The table [receipts] with the counter of its [AUTOINCREMENT] key. *)
Record table : Type := mkTable {
  rows : list receipt;
  last_id : Z
}.

Definition empty_table : table := {| rows := []; last_id := 0%Z |}.

(** [SELECT 1 FROM receipts WHERE file_hash=?] followed by [fetchone()]. *)
Definition hash_present (t : table) (h : string) : bool :=
  existsb (fun r => String.eqb (file_hash r) h) (rows t).

(** Types the sqlite3 driver accepts as a statement parameter. *)
Definition bindable (v : pyval) : bool :=
  match v with
  | PList _ | PDict _ => false
  | _ => true
  end.

(** [INSERT INTO receipts (merchant, date, total, currency, category,
    raw_json, file_hash) VALUES (?, ?, ?, ?, ?, ?, ?)]: the parameters are
    bound first, then the [UNIQUE] constraint on [file_hash] is checked. *)
Definition insert_receipt (t : table) (merchant date : pyval) (total : Q)
    (currency : pyval) (cat : category) (raw : pyval) (h : string)
  : result table :=
  if negb (bindable merchant && bindable date && bindable currency)
  then Raise InterfaceError
  else if hash_present t h then Raise IntegrityError
  else
    let i := (last_id t + 1)%Z in
    Ok {| rows := rows t ++
                  [ {| id := i; merchant := merchant; date_col := date;
                       total := total; currency := currency;
                       category_col := cat; raw_json := raw;
                       file_hash := h |} ];
          last_id := i |}.

(** How a run of the upload tab ends. *)
Inductive outcome : Type :=
| Saved
| DuplicateFile
| ExtractionFailed
| Crashed (e : exn).

(** ** Validation verdict (both applications, History tab) *)

Inductive verdict : Type := PASSED | FAILED.

(** [tolerance = max(2, 0.02 * bill_total)] *)
Definition tolerance_of (bill_total : Q) : Q := Qmax 2 ((2 # 100) * bill_total).

(** [abs(bill_total - calculated_total) <= tolerance] *)
Definition status_of (bill_total calculated_total tolerance : Q) : verdict :=
  if Qle_bool (Qabs (bill_total - calculated_total)) tolerance
  then PASSED else FAILED.

(** What the History tab computes and shows for the selected bill.
    [itemised_tax] is the value of [total_tax] as first assigned (the sum of
    the tax fields); [total_tax] is its value when [calculated_total] is
    computed.  [tax_inferred] and [no_items] record the [st.info] and
    [st.warning] messages of milestone 1. *)
Record validation : Type := mkValidation {
  subtotal : Q;
  itemised_tax : Q;
  total_tax : Q;
  discount : Q;
  calculated_total : Q;
  tolerance : Q;
  status : verdict;
  tax_inferred : bool;
  no_items : bool
}.

Section Builtin_float.

(** [float(s)] on a string [s]: [None] stands for [ValueError]. *)
Variable float_of_str : string -> option Q.

(** The built-in [float(val)]. *)
Definition py_float (val : pyval) : result Q :=
  match val with
  | PNum q => Ok q
  | PBool b => Ok (if b then 1 else 0)
  | PStr s =>
      match float_of_str s with
      | Some q => Ok q
      | None => Raise ValueError
      end
  | PNone | PList _ | PDict _ => Raise TypeError
  end.

End Builtin_float.

Section Builtin_json.

(** [json.loads(s)]: [None] stands for [JSONDecodeError]. *)
Variable json_loads : string -> option pyval.

Definition py_json_loads (s : string) : result pyval :=
  match json_loads s with
  | Some v => Ok v
  | None => Raise ValueError
  end.

End Builtin_json.

Section Builtin_date.

(** [datetime.fromisoformat(s).date()] on a string [s]: [None] stands for
    [ValueError]. *)
Variable fromisoformat : string -> option date.

Definition py_fromisoformat (val : pyval) : result date :=
  match val with
  | PStr s =>
      match fromisoformat s with
      | Some d => Ok d
      | None => Raise ValueError
      end
  | _ => Raise TypeError
  end.

End Builtin_date.

(** ** Milestone 1: app1.py *)

Module M1.

(** [classify_category], lines 40-57. *)
Definition classify_category (merchant : pyval) : result category :=
  if negb (truthy merchant) then Ok Other
  else
    m <- py_lower merchant ;;
    if any_in ["grocery"; "mart"; "supermarket"; "basket"] m then Ok Groceries
    else if any_in ["hospital"; "medical"; "pharmacy"; "clinic"] m then Ok Medical
    else if any_in ["hotel"; "restaurant"; "cafe"; "food"] m then Ok Restaurant
    else if any_in ["uber"; "ola"; "flight"; "rail"; "travel"] m then Ok Travel
    else if any_in ["electricity"; "water"; "gas"; "bill"] m then Ok Utilities
    else Ok Other.

Section App.

Variable json_loads : string -> option pyval.
Variable float_of_str : string -> option Q.
Variable fromisoformat : string -> option date.

(** [safe_json], lines 66-72: [None] on any failure. *)
Definition safe_json (text : string) : pyval :=
  try_except
    (start <- str_index text "{" ;;
     last <- str_rindex text "}" ;;
     let end_ := (last + 1)%nat in
     py_json_loads json_loads (slice text start end_))
    PNone.

(** [analyze_receipt], lines 118-127.  [response] is the text answered by
    the model, or [None] when the call raised. *)
Definition analyze_receipt (response : option string) : pyval :=
  match response with
  | Some text => safe_json text
  | None => PNone
  end.

(** Upload tab, lines 151-207, for one press of "Analyze & Save".
    [h] is the MD5 digest of the uploaded bytes. *)
Definition upload (t : table) (h : string) (response : option string)
  : outcome * table :=
  if hash_present t h then (DuplicateFile, t)
  else
    let data := analyze_receipt response in
    if negb (truthy data) then (ExtractionFailed, t)
    else
      let total :=
        try_except
          (v <- py_get data "total" (PNum 0) ;; py_float float_of_str v) 0 in
      let date :=
        try_except
          (v <- py_get data "date" PNone ;;
           d <- py_fromisoformat fromisoformat v ;;
           Ok (PStr (isoformat d)))
          PNone in
      match
        (merchant <- py_get data "merchant" (PStr "Unknown") ;;
         category <- classify_category merchant ;;
         currency <- py_get data "currency" (PStr EmptyString) ;;
         insert_receipt t merchant date total currency category data h)
      with
      | Ok t' => (Saved, t')
      | Raise e => (Crashed e, t)
      end.

(** History tab, lines 264-318: amount validation of one bill. *)

Definition price (i : pyval) : result Q :=
  p <- py_get i "price" (PNum 0) ;; py_float float_of_str p.

Definition tax_field (taxes : pyval) (k : string) : result Q :=
  v <- py_get taxes k (PNum 0) ;; py_float float_of_str v.

(** Lines 285-290: the value of [total_tax] after the fallback, and
    whether the [st.info] message was shown. *)
Definition infer_tax (bill_total subtotal total_tax : Q) : Q * bool :=
  if Qeq_bool total_tax 0 && Qlt_bool 0 subtotal then
    let inferred_tax := bill_total - subtotal in
    if Qlt_bool 0 inferred_tax then (inferred_tax, true)
    else (total_tax, false)
  else (total_tax, false).

Definition validate (bill_total : Q) (raw : pyval) : result validation :=
  items <- py_get raw "items" (PList []) ;;
  subtotal <-
    (if truthy items
     then (l <- py_iter items ;; py_sum price l)
     else Ok 0) ;;
  taxes <- py_get raw "taxes" (PDict []) ;;
  gst <- tax_field taxes "gst" ;;
  cgst <- tax_field taxes "cgst" ;;
  sgst <- tax_field taxes "sgst" ;;
  igst <- tax_field taxes "igst" ;;
  other <- tax_field taxes "other" ;;
  let itemised := gst + cgst + sgst + igst + other in
  let '(total_tax, inferred) := infer_tax bill_total subtotal itemised in
  discount <- (v <- py_get raw "discount" (PNum 0) ;; py_float float_of_str v) ;;
  let calculated_total := subtotal + total_tax - discount in
  let tolerance := tolerance_of bill_total in
  Ok {| subtotal := subtotal;
        itemised_tax := itemised;
        total_tax := total_tax;
        discount := discount;
        calculated_total := calculated_total;
        tolerance := tolerance;
        status := status_of bill_total calculated_total tolerance;
        tax_inferred := inferred;
        no_items := negb (truthy items) |}.

(** Lines 214-258: the run stops ([None]) when no bill is stored; otherwise
    the selected bill is read back from the table and unpacked. *)
Definition history (t : table) (bill_id : Z) : option (result validation) :=
  match rows t with
  | [] => None
  | _ =>
      Some (match find (fun r => Z.eqb (id r) bill_id) (rows t) with
            | Some r => validate (total r) (raw_json r)
            | None => Raise TypeError
            end)
  end.

End App.

End M1.

(** ** Milestone 2: app2.py *)

Module M2.

(** [classify_category], lines 53-67. *)
Definition classify_category (merchant : pyval) : result category :=
  if negb (truthy merchant) then Ok Other
  else
    m <- py_lower merchant ;;
    if any_in ["grocery"; "mart"; "supermarket"] m then Ok Groceries
    else if any_in ["hospital"; "medical"; "pharmacy"] m then Ok Medical
    else if any_in ["restaurant"; "cafe"; "food"] m then Ok Restaurant
    else if any_in ["uber"; "ola"; "flight"; "rail"] m then Ok Travel
    else if any_in ["electricity"; "water"; "gas"] m then Ok Utilities
    else Ok Other.

Section App.

Variable json_loads : string -> option pyval.
Variable float_of_str : string -> option Q.

(** [safe_float], lines 47-51. *)
Definition safe_float (val : pyval) : Q :=
  try_except (py_float float_of_str val) 0.

(** [safe_json], lines 77-83: the empty dict on any failure. *)
Definition safe_json (text : string) : pyval :=
  try_except
    (start <- str_index text "{" ;;
     last <- str_rindex text "}" ;;
     let end_ := (last + 1)%nat in
     py_json_loads json_loads (slice text start end_))
    (PDict []).

(** [analyze_receipt], lines 99-106. *)
Definition analyze_receipt (response : option string) : pyval :=
  match response with
  | Some text => safe_json text
  | None => PDict []
  end.

(** Upload tab, lines 128-170, for one press of "Analyze & Save". *)
Definition upload (t : table) (h : string) (response : option string)
  : outcome * table :=
  if hash_present t h then (DuplicateFile, t)
  else
    let data := analyze_receipt response in
    match
      (merchant <- py_get data "merchant" (PStr "Unknown") ;;
       category <- classify_category merchant ;;
       date <- py_get data "date" PNone ;;
       total <- py_get data "total" PNone ;;
       currency <- py_get data "currency" (PStr EmptyString) ;;
       insert_receipt t merchant date (safe_float total) currency
         category data h)
    with
    | Ok t' => (Saved, t')
    | Raise e => (Crashed e, t)
    end.

(** History tab, lines 221-232: amount validation of one bill. *)

Definition price (i : pyval) : result Q :=
  p <- py_get i "price" PNone ;; Ok (safe_float p).

Definition validate (bill_total : Q) (raw : pyval) : result validation :=
  items <- py_get raw "items" (PList []) ;;
  l <- py_iter items ;;
  subtotal <- py_sum price l ;;
  taxes <- py_get raw "taxes" (PDict []) ;;
  vs <- py_values taxes ;;
  total_tax <- py_sum (fun v => Ok (safe_float v)) vs ;;
  discount <- (v <- py_get raw "discount" PNone ;; Ok (safe_float v)) ;;
  let calculated_total := subtotal + total_tax - discount in
  let tolerance := tolerance_of bill_total in
  Ok {| subtotal := subtotal;
        itemised_tax := total_tax;
        total_tax := total_tax;
        discount := discount;
        calculated_total := calculated_total;
        tolerance := tolerance;
        status := status_of bill_total calculated_total tolerance;
        tax_inferred := false;
        no_items := false |}.

(** Lines 176-218: the run stops ([None]) when no bill is stored or the
    selected bill is not found. *)
Definition history (t : table) (bill_id : Z) : option (result validation) :=
  match rows t with
  | [] => None
  | _ =>
      match find (fun r => Z.eqb (id r) bill_id) (rows t) with
      | Some r => Some (validate (safe_float (PNum (total r))) (raw_json r))
      | None => None
      end
  end.

End App.

End M2.

(** ** Reference implementations of the library calls

    They are used to run the model on concrete texts.  The theorems on the
    applications hold for every decoder; these cover: JSON documents of
    RFC 8259 over ASCII text (the literals [NaN] and [Infinity] and [\u]
    escapes beyond ASCII are rejected), decimal literals for [float], and the
    date-only form [YYYY-MM-DD] for [fromisoformat]. *)

Module PyLib.

Definition is_ws (c : ascii) : bool :=
  let n := nat_of_ascii c in
  ((n =? 32) || (n =? 9) || (n =? 10) || (n =? 13))%nat.

Fixpoint skip_ws (s : string) : string :=
  match s with
  | String c s' => if is_ws c then skip_ws s' else s
  | EmptyString => s
  end.

Definition digit_val (c : ascii) : option Z :=
  let n := nat_of_ascii c in
  if (48 <=? n)%nat && (n <=? 57)%nat then Some (Z.of_nat (n - 48)) else None.

(** The longest run of decimal digits at the head of [s]: the number read
    after [acc], how many digits were read, and the rest. *)
Fixpoint read_digits (s : string) (acc : Z) (n : nat) : Z * nat * string :=
  match s with
  | String c s' =>
      match digit_val c with
      | Some d => read_digits s' (10 * acc + d)%Z (S n)
      | None => (acc, n, s)
      end
  | EmptyString => (acc, n, s)
  end.

(** Optional fraction [. digits+] and exponent [e [+-] digits+] after an
    integer part; [strict] asks for a digit after the point. *)
Definition read_fraction (strict : bool) (s : string) : Z * nat * string :=
  match s with
  | String "." s' =>
      let '(f, k, r) := read_digits s' 0%Z 0%nat in
      match k with
      | O => if strict then (0%Z, O, s) else (0%Z, O, r)
      | _ => (f, k, r)
      end
  | _ => (0%Z, O, s)
  end.

Definition read_exponent (s : string) : Z * string :=
  match s with
  | String c s' =>
      if Ascii.eqb c "e" || Ascii.eqb c "E" then
        let '(neg, s1) :=
          match s' with
          | String "-" r => (true, r)
          | String "+" r => (false, r)
          | _ => (false, s')
          end in
        let '(e, k, r) := read_digits s1 0%Z 0%nat in
        match k with
        | O => (0%Z, s)
        | _ => ((if neg then - e else e)%Z, r)
        end
      else (0%Z, s)
  | EmptyString => (0%Z, s)
  end.

Definition decimal (neg : bool) (i f : Z) (k : nat) (e : Z) : Q :=
  let m := (i * 10 ^ Z.of_nat k + f)%Z in
  inject_Z (if neg then - m else m)%Z * Qpower (10 # 1) (e - Z.of_nat k).

(** A JSON number: an optional minus sign, an integer part without
    leading zeros, an optional fraction and an optional exponent. *)
Definition parse_number (s : string) : option (Q * string) :=
  let '(neg, s1) :=
    match s with
    | String "-" r => (true, r)
    | _ => (false, s)
    end in
  let int_part :=
    match s1 with
    | String "0" r => Some (0%Z, r)
    | _ =>
        let '(i, k, r) := read_digits s1 0%Z 0%nat in
        match k with O => None | _ => Some (i, r) end
    end in
  match int_part with
  | None => None
  | Some (i, r) =>
      let '(f, k, r1) := read_fraction true r in
      let '(e, r2) := read_exponent r1 in
      Some (decimal neg i f k e, r2)
  end.

Definition hex_val (c : ascii) : option nat :=
  let n := nat_of_ascii c in
  if (48 <=? n)%nat && (n <=? 57)%nat then Some (n - 48)%nat
  else if (97 <=? n)%nat && (n <=? 102)%nat then Some (n - 87)%nat
  else if (65 <=? n)%nat && (n <=? 70)%nat then Some (n - 55)%nat
  else None.

Definition unicode_escape (a b c d : ascii) : option ascii :=
  match hex_val a, hex_val b, hex_val c, hex_val d with
  | Some x, Some y, Some z, Some w =>
      let n := (((x * 16 + y) * 16 + z) * 16 + w)%nat in
      if (n <? 128)%nat then Some (ascii_of_nat n) else None
  | _, _, _, _ => None
  end.

Definition dquote : ascii := ascii_of_nat 34.

Definition simple_escape (e : ascii) : option ascii :=
  if Ascii.eqb e dquote then Some dquote
  else if Ascii.eqb e "\" then Some "\"%char
  else if Ascii.eqb e "/" then Some "/"%char
  else if Ascii.eqb e "b" then Some (ascii_of_nat 8)
  else if Ascii.eqb e "f" then Some (ascii_of_nat 12)
  else if Ascii.eqb e "n" then Some (ascii_of_nat 10)
  else if Ascii.eqb e "r" then Some (ascii_of_nat 13)
  else if Ascii.eqb e "t" then Some (ascii_of_nat 9)
  else None.

(** The characters of a JSON string after its opening quote. *)
Fixpoint parse_string (s : string) : option (string * string) :=
  match s with
  | EmptyString => None
  | String "\" (String "u" (String a (String b (String c (String d r))))) =>
      match unicode_escape a b c d, parse_string r with
      | Some x, Some (body, rest) => Some (String x body, rest)
      | _, _ => None
      end
  | String "\" (String e r) =>
      match simple_escape e, parse_string r with
      | Some x, Some (body, rest) => Some (String x body, rest)
      | _, _ => None
      end
  | String c r =>
      if Ascii.eqb c dquote then Some (EmptyString, r)
      else if (nat_of_ascii c <? 32)%nat then None
      else match parse_string r with
           | Some (body, rest) => Some (String c body, rest)
           | None => None
           end
  end.

(** [d[k] = v] on a dict in insertion order. *)
Fixpoint dict_set (k : string) (v : pyval) (d : list (string * pyval))
  : list (string * pyval) :=
  match d with
  | [] => [(k, v)]
  | (k', v') :: d' =>
      if String.eqb k k' then (k', v) :: d' else (k', v') :: dict_set k v d'
  end.

Definition strip_prefix (p s : string) : option string :=
  if prefix p s then Some (substring (length p) (length s - length p) s)
  else None.

(** Recursive descent; [fuel] bounds the number of values and separators
    read. *)
Fixpoint parse_value (fuel : nat) (s : string) : option (pyval * string) :=
  match fuel with
  | O => None
  | S fuel' =>
      match skip_ws s with
      | String "{" r =>
          match skip_ws r with
          | String "}" r' => Some (PDict [], r')
          | r' => parse_members fuel' r' []
          end
      | String "[" r =>
          match skip_ws r with
          | String "]" r' => Some (PList [], r')
          | r' => parse_elements fuel' r' []
          end
      | String c r =>
          if Ascii.eqb c dquote then
            match parse_string r with
            | Some (x, r') => Some (PStr x, r')
            | None => None
            end
          else
            let s' := String c r in
            match strip_prefix "null" s', strip_prefix "true" s',
                  strip_prefix "false" s' with
            | Some r, _, _ => Some (PNone, r)
            | _, Some r, _ => Some (PBool true, r)
            | _, _, Some r => Some (PBool false, r)
            | _, _, _ =>
                match parse_number s' with
                | Some (q, r) => Some (PNum q, r)
                | None => None
                end
            end
      | EmptyString => None
      end
  end

with parse_elements (fuel : nat) (s : string) (acc : list pyval)
  : option (pyval * string) :=
  match fuel with
  | O => None
  | S fuel' =>
      match parse_value fuel' s with
      | Some (v, r) =>
          match skip_ws r with
          | String "," r' => parse_elements fuel' r' (acc ++ [v])
          | String "]" r' => Some (PList (acc ++ [v]), r')
          | _ => None
          end
      | None => None
      end
  end

with parse_members (fuel : nat) (s : string) (acc : list (string * pyval))
  : option (pyval * string) :=
  match fuel with
  | O => None
  | S fuel' =>
      match skip_ws s with
      | String c r =>
          if Ascii.eqb c dquote then
            match parse_string r with
            | Some (k, r1) =>
                match skip_ws r1 with
                | String ":" r2 =>
                    match parse_value fuel' r2 with
                    | Some (v, r3) =>
                        match skip_ws r3 with
                        | String "," r4 =>
                            parse_members fuel' r4 (dict_set k v acc)
                        | String "}" r4 =>
                            Some (PDict (dict_set k v acc), r4)
                        | _ => None
                        end
                    | None => None
                    end
                | _ => None
                end
            | None => None
            end
          else None
      | EmptyString => None
      end
  end.

(** [json.loads] *)
Definition json_loads (s : string) : option pyval :=
  match parse_value (2 * length s + 2) s with
  | Some (v, r) =>
      match skip_ws r with
      | EmptyString => Some v
      | _ => None
      end
  | None => None
  end.

Fixpoint rstrip_ws (s : string) : string :=
  match s with
  | EmptyString => EmptyString
  | String c s' =>
      match rstrip_ws s' with
      | EmptyString => if is_ws c then EmptyString else String c EmptyString
      | r => String c r
      end
  end.

(** [float(s)] for a decimal literal: optional sign, digits with an
    optional point, optional exponent, surrounded by white space. *)
Definition float_of_str (s : string) : option Q :=
  let s0 := rstrip_ws (skip_ws s) in
  let '(neg, s1) :=
    match s0 with
    | String "-" r => (true, r)
    | String "+" r => (false, r)
    | _ => (false, s0)
    end in
  let '(i, ki, r) := read_digits s1 0%Z 0%nat in
  let '(f, kf, r1) := read_fraction false r in
  let '(e, r2) := read_exponent r1 in
  match (ki + kf)%nat, r2 with
  | S _, EmptyString => Some (decimal neg i f kf e)
  | _, _ => None
  end.

Definition two_digits (a b : ascii) : option N :=
  match digit_val a, digit_val b with
  | Some x, Some y => Some (Z.to_N (10 * x + y))
  | _, _ => None
  end.

(** The fields of a text of the form [YYYY-MM-DD]. *)
Definition date_fields (s : string) : option date :=
  match list_ascii_of_string s with
  | [y1; y2; y3; y4; s1; m1; m2; s2; d1; d2] =>
      if Ascii.eqb s1 "-" && Ascii.eqb s2 "-" then
        match two_digits y1 y2, two_digits y3 y4, two_digits m1 m2,
              two_digits d1 d2 with
        | Some yh, Some yl, Some m, Some d =>
            Some {| year := 100 * yh + yl; month := m; day := d |}%N
        | _, _, _, _ => None
        end
      else None
  | _ => None
  end.

(** [datetime.fromisoformat(s).date()] for [s] of the form [YYYY-MM-DD]. *)
Definition fromisoformat (s : string) : option date :=
  match date_fields s with
  | Some dt => if valid_date dt then Some dt else None
  | None => None
  end.

End PyLib.

(** ** The verdict on binary64 floats

    The same two expressions as [tolerance_of] and [status_of], evaluated
    with the floating-point operations that Python uses.  The constant
    [0x1.47ae147ae147bp-6] is the binary64 value of the literal [0.02]. *)

Module Binary64.

Definition tolerance_of (bill_total : float) : float :=
  let pct := PrimFloat.mul 0x1.47ae147ae147bp-6%float bill_total in
  if PrimFloat.ltb 2%float pct then pct else 2%float.

Definition status_of (bill_total calculated_total tolerance : float) : verdict :=
  if PrimFloat.leb (PrimFloat.abs (PrimFloat.sub bill_total calculated_total))
       tolerance
  then PASSED else FAILED.

End Binary64.

(** ** The History tabs on binary64 amounts

    A Python [float] is an IEEE 754 binary64 number.  Here it is a
    [spec_float] with precision 53 and maximal exponent 1024, and the
    arithmetic is the one of the standard library's [SpecFloat]: round to
    nearest, ties to even, with signed zeros, infinities and NaN.  A
    Python [int] is a [Z].  Where Python mixes the two ([sum] starts from
    the integer 0, [max(2, x)], [total_tax == 0]) the integer is converted
    exactly, so the integer 0 and 2 are the floats [zero] and [two]. *)

Module B64.

Definition zero : spec_float := S754_zero false.
Definition one : spec_float := S754_finite false 4503599627370496 (-52).
Definition two : spec_float := S754_finite false 4503599627370496 (-51).

(** The literal [0.02], that is [0x1.47ae147ae147bp-6]. *)
Definition two_percent : spec_float := S754_finite false 5764607523034235 (-58).

Definition fadd : spec_float -> spec_float -> spec_float := SFadd prec emax.
Definition fsub : spec_float -> spec_float -> spec_float := SFsub prec emax.
Definition fmul : spec_float -> spec_float -> spec_float := SFmul prec emax.
Definition fdiv : spec_float -> spec_float -> spec_float := SFdiv prec emax.
Definition fabs : spec_float -> spec_float := SFabs.
Definition feq : spec_float -> spec_float -> bool := SFeqb.
Definition flt : spec_float -> spec_float -> bool := SFltb.
Definition fle : spec_float -> spec_float -> bool := SFleb.

(** The float nearest to an integer. *)
Definition of_int (n : Z) : spec_float := binary_normalize prec emax n 0 false.

Definition is_zero (x : spec_float) : bool :=
  match x with S754_zero _ => true | _ => false end.

Definition is_finite (x : spec_float) : bool :=
  match x with S754_zero _ | S754_finite _ _ _ => true | _ => false end.

(** [max(a, b)] keeps [a] unless [b > a]. *)
Definition py_max (a b : spec_float) : spec_float := if flt a b then b else a.

Inductive pyval : Type :=
| PNone
| PBool (b : bool)
| PInt (n : Z)
| PFloat (x : spec_float)
| PStr (s : string)
| PList (l : list pyval)
| PDict (d : list (string * pyval)).

Fixpoint assoc (k : string) (d : list (string * pyval)) : option pyval :=
  match d with
  | [] => None
  | (k', v) :: d' => if String.eqb k k' then Some v else assoc k d'
  end.

Definition py_get (o : pyval) (k : string) (dflt : pyval) : result pyval :=
  match o with
  | PDict d => Ok (match assoc k d with Some v => v | None => dflt end)
  | _ => Raise AttributeError
  end.

Definition py_values (o : pyval) : result (list pyval) :=
  match o with
  | PDict d => Ok (map snd d)
  | _ => Raise AttributeError
  end.

Definition py_iter (o : pyval) : result (list pyval) :=
  match o with
  | PList l => Ok l
  | PDict d => Ok (map (fun kv => PStr (fst kv)) d)
  | PStr s => Ok (map (fun c => PStr (String c EmptyString)) (list_ascii_of_string s))
  | _ => Raise TypeError
  end.

Definition truthy (o : pyval) : bool :=
  match o with
  | PNone => false
  | PBool b => b
  | PInt n => negb (Z.eqb n 0)
  | PFloat x => negb (is_zero x)
  | PStr s => negb (String.eqb s EmptyString)
  | PList l => match l with [] => false | _ => true end
  | PDict d => match d with [] => false | _ => true end
  end.

(** [sum(f(i) for i in l)], from the integer 0. *)
Fixpoint sum_from (f : pyval -> result spec_float) (l : list pyval)
    (acc : spec_float) : result spec_float :=
  match l with
  | [] => Ok acc
  | x :: l' =>
      match f x with
      | Ok q => sum_from f l' (fadd acc q)
      | Raise e => Raise e
      end
  end.

Definition py_sum (f : pyval -> result spec_float) (l : list pyval)
  : result spec_float :=
  sum_from f l zero.

(** [tolerance = max(2, 0.02 * bill_total)] *)
Definition tolerance_of (bill_total : spec_float) : spec_float :=
  py_max two (fmul two_percent bill_total).

(** [abs(bill_total - calculated_total) <= tolerance] *)
Definition status_of (bill_total calculated_total tolerance : spec_float)
  : verdict :=
  if fle (fabs (fsub bill_total calculated_total)) tolerance
  then PASSED else FAILED.

Record validation : Type := mkValidation {
  subtotal : spec_float;
  itemised_tax : spec_float;
  total_tax : spec_float;
  discount : spec_float;
  calculated_total : spec_float;
  tolerance : spec_float;
  status : verdict;
  tax_inferred : bool;
  no_items : bool
}.

Section Builtin_float.

(** [float(s)] on a string [s]: [None] stands for [ValueError]. *)
Variable float_of_str : string -> option spec_float.

(** The built-in [float(val)]: an integer too large for a float is an
    [OverflowError]. *)
Definition py_float (val : pyval) : result spec_float :=
  match val with
  | PFloat x => Ok x
  | PInt n =>
      match of_int n with
      | S754_infinity _ => Raise OverflowError
      | x => Ok x
      end
  | PBool b => Ok (if b then one else zero)
  | PStr s =>
      match float_of_str s with
      | Some x => Ok x
      | None => Raise ValueError
      end
  | PNone | PList _ | PDict _ => Raise TypeError
  end.

End Builtin_float.

(** *** app1.py, History tab, lines 264-318 *)

Module M1.

Section App.

(** [show_table items] is the display of the line items,
    [st.table(pd.DataFrame(items))], which can raise. *)
Variable float_of_str : string -> option spec_float.
Variable show_table : pyval -> result unit.

Definition price (i : pyval) : result spec_float :=
  p <- py_get i "price" (PInt 0) ;; py_float float_of_str p.

Definition tax_field (taxes : pyval) (k : string) : result spec_float :=
  v <- py_get taxes k (PInt 0) ;; py_float float_of_str v.

Definition infer_tax (bill_total subtotal total_tax : spec_float)
  : spec_float * bool :=
  if feq total_tax zero && flt zero subtotal then
    let inferred_tax := fsub bill_total subtotal in
    if flt zero inferred_tax then (inferred_tax, true)
    else (total_tax, false)
  else (total_tax, false).

Definition validate (bill_total : spec_float) (raw : pyval)
  : result validation :=
  items <- py_get raw "items" (PList []) ;;
  subtotal <-
    (if truthy items
     then (_ <- show_table items ;; l <- py_iter items ;; py_sum price l)
     else Ok zero) ;;
  taxes <- py_get raw "taxes" (PDict []) ;;
  gst <- tax_field taxes "gst" ;;
  cgst <- tax_field taxes "cgst" ;;
  sgst <- tax_field taxes "sgst" ;;
  igst <- tax_field taxes "igst" ;;
  other <- tax_field taxes "other" ;;
  let itemised := fadd (fadd (fadd (fadd gst cgst) sgst) igst) other in
  let '(total_tax, inferred) := infer_tax bill_total subtotal itemised in
  discount <- (v <- py_get raw "discount" (PInt 0) ;; py_float float_of_str v) ;;
  let calculated_total := fsub (fadd subtotal total_tax) discount in
  let tolerance := tolerance_of bill_total in
  Ok {| subtotal := subtotal;
        itemised_tax := itemised;
        total_tax := total_tax;
        discount := discount;
        calculated_total := calculated_total;
        tolerance := tolerance;
        status := status_of bill_total calculated_total tolerance;
        tax_inferred := inferred;
        no_items := negb (truthy items) |}.

End App.

End M1.

(** *** app2.py, History tab, lines 221-232 *)

Module M2.

Section App.

Variable float_of_str : string -> option spec_float.
Variable show_table : pyval -> result unit.

(** [safe_float], lines 47-51. *)
Definition safe_float (val : pyval) : spec_float :=
  try_except (py_float float_of_str val) zero.

Definition price (i : pyval) : result spec_float :=
  p <- py_get i "price" PNone ;; Ok (safe_float p).

Definition validate (bill_total : spec_float) (raw : pyval)
  : result validation :=
  items <- py_get raw "items" (PList []) ;;
  _ <- show_table items ;;
  l <- py_iter items ;;
  subtotal <- py_sum price l ;;
  taxes <- py_get raw "taxes" (PDict []) ;;
  vs <- py_values taxes ;;
  total_tax <- py_sum (fun v => Ok (safe_float v)) vs ;;
  discount <- (v <- py_get raw "discount" PNone ;; Ok (safe_float v)) ;;
  let calculated_total := fsub (fadd subtotal total_tax) discount in
  let tolerance := tolerance_of bill_total in
  Ok {| subtotal := subtotal;
        itemised_tax := total_tax;
        total_tax := total_tax;
        discount := discount;
        calculated_total := calculated_total;
        tolerance := tolerance;
        status := status_of bill_total calculated_total tolerance;
        tax_inferred := false;
        no_items := false |}.

End App.

End M2.

End B64.

(** ** Normalised inputs on binary64 amounts (section 4.4 of the
    specification) *)

Module N64.

Import B64.

(** A JSON number: an integer or a float. *)
Inductive amount : Type :=
| Int (n : Z)
| Flt (x : spec_float).

Definition amount_json (a : amount) : pyval :=
  match a with
  | Int n => PInt n
  | Flt x => PFloat x
  end.

(** The amount as a float. *)
Definition value (a : amount) : spec_float :=
  match a with
  | Int n => of_int n
  | Flt x => x
  end.

(** An integer amount is within the range of the floats. *)
Definition fits (a : amount) : bool :=
  match a with
  | Int n => is_finite (of_int n)
  | Flt _ => true
  end.

Record item : Type := mkItem { item_name : string; item_price : amount }.

Record taxes : Type :=
  mkTaxes { gst : amount; cgst : amount; sgst : amount; igst : amount;
            other : amount }.

Definition item_json (i : item) : pyval :=
  PDict [("name", PStr (item_name i)); ("price", amount_json (item_price i))].

Definition taxes_json (t : taxes) : pyval :=
  PDict [("gst", amount_json (gst t)); ("cgst", amount_json (cgst t));
         ("sgst", amount_json (sgst t)); ("igst", amount_json (igst t));
         ("other", amount_json (other t))].

Definition fit_taxes (t : taxes) : bool :=
  fits (gst t) && fits (cgst t) && fits (sgst t) && fits (igst t)
  && fits (other t).

(** The stored payload [raw] carries the items [its], the taxes [tx] and
    the discount [disc], all of them numbers, whatever its other fields
    are. *)
Definition normalised (raw : pyval) (its : list item) (tx : taxes)
    (disc : amount) : Prop :=
  (exists d,
      raw = PDict d /\
      assoc "items" d = Some (PList (map item_json its)) /\
      assoc "taxes" d = Some (taxes_json tx) /\
      assoc "discount" d = Some (amount_json disc)) /\
  forallb (fun i => fits (item_price i)) its = true /\
  fit_taxes tx = true /\
  fits disc = true.

Definition payload (its : list item) (tx : taxes) (disc : amount) : pyval :=
  PDict [("items", PList (map item_json its));
         ("taxes", taxes_json tx);
         ("discount", amount_json disc)].

(** [subtotal = sum(price for each item)], added from left to right. *)
Definition sum_prices (its : list item) : spec_float :=
  fold_left (fun acc i => fadd acc (value (item_price i))) its zero.

(** [itemizedTax = gst + cgst + sgst + igst + other] *)
Definition itemized_tax (tx : taxes) : spec_float :=
  fadd (fadd (fadd (fadd (value (gst tx)) (value (cgst tx))) (value (sgst tx)))
          (value (igst tx)))
    (value (other tx)).

(** Step 3 of section 4.4, the tax-inference fallback: the effective tax
    and whether it was inferred. *)
Definition tax_fallback (claimed subtotal itemized : spec_float)
  : spec_float * bool :=
  if feq itemized zero && flt zero subtotal then
    let inferred := fsub claimed subtotal in
    if flt zero inferred then (inferred, true) else (zero, false)
  else (itemized, false).

(** Two floats are the same number: they are equal, or both are a zero
    (of either sign). *)
Definition same (x y : spec_float) : Prop :=
  x = y \/ (is_zero x = true /\ is_zero y = true).

(** The formulas of section 4.4 on a result [v] of the History tab, for the
    claimed total [bill_total] and the effective tax [effective]. *)
Definition reconciles (bill_total : spec_float) (its : list item)
    (tx : taxes) (disc : amount) (effective : spec_float) (v : validation)
  : Prop :=
  same (subtotal v) (sum_prices its) /\
  same (itemised_tax v) (itemized_tax tx) /\
  same (total_tax v) effective /\
  same (discount v) (value disc) /\
  same (calculated_total v)
    (fsub (fadd (sum_prices its) effective) (value disc)) /\
  tolerance v = py_max two (fmul two_percent bill_total) /\
  (status v = PASSED <->
   fle (fabs (fsub bill_total (calculated_total v)))
     (py_max two (fmul two_percent bill_total)) = true).

(** [n] hundredths, as the float nearest to [n / 100]: the value of a
    decimal literal with two places. *)
Definition cents (n : Z) : spec_float := fdiv (of_int n) (of_int 100).

Definition no_taxes : taxes :=
  {| gst := Int 0; cgst := Int 0; sgst := Int 0; igst := Int 0;
     other := Int 0 |}.

Definition gst_only (g : amount) : taxes :=
  {| gst := g; cgst := Int 0; sgst := Int 0; igst := Int 0; other := Int 0 |}.

Definition one_item (p : amount) : list item :=
  [ {| item_name := "item"; item_price := p |} ].

Definition tea_and_cake : list item :=
  [ {| item_name := "tea"; item_price := Int 40 |};
    {| item_name := "cake"; item_price := Int 50 |} ].

(** The float nearest to a rational, and [float(s)] for a decimal
    literal. *)
Definition of_Q (q : Q) : spec_float :=
  match Qnum q with
  | Z0 => zero
  | Zpos n => fdiv (S754_finite false n 0) (S754_finite false (Qden q) 0)
  | Zneg n => fdiv (S754_finite true n 0) (S754_finite false (Qden q) 0)
  end.

Definition float_of_str (s : string) : option spec_float :=
  option_map of_Q (PyLib.float_of_str s).

(** The display of the line items succeeds. *)
Definition shown (_ : pyval) : result unit := Ok tt.

End N64.

(** ** Stored payloads of any content, on binary64 amounts *)

Module S64.

Import B64.

(** A payload has the shape the History tab of milestone 2 relies on: a
    dict whose [items], when present, is a list of dicts and whose [taxes],
    when present, is a dict.  The values of the fields are arbitrary. *)
Definition is_dict (v : pyval) : Prop :=
  match v with PDict _ => True | _ => False end.

Definition well_shaped (d : list (string * pyval)) : Prop :=
  match assoc "items" d with
  | None => True
  | Some (PList l) => Forall is_dict l
  | Some _ => False
  end /\
  match assoc "taxes" d with
  | None => True
  | Some v => is_dict v
  end.


(** A payload none of whose amounts is a number that a float can hold. *)
Definition garbled_payload : list (string * pyval) :=
  [("items", PList [PDict [("name", PStr "tea"); ("price", PStr "n/a")];
                    PDict [("name", PStr "cake"); ("price", PInt (10 ^ 400))];
                    PDict [("name", PStr "milk")]]);
   ("taxes", PDict [("gst", PNone); ("cgst", PList [])]);
   ("discount", PDict [])].

End S64.

(** ** Normalised inputs of the reconciliation (section 4.4 of the
    specification) *)

Record item : Type := mkItem { item_name : string; item_price : Q }.

Record taxes : Type := mkTaxes { gst : Q; cgst : Q; sgst : Q; igst : Q; other : Q }.

Definition item_json (i : item) : pyval :=
  PDict [("name", PStr (item_name i)); ("price", PNum (item_price i))].

Definition taxes_json (t : taxes) : pyval :=
  PDict [("gst", PNum (gst t)); ("cgst", PNum (cgst t));
         ("sgst", PNum (sgst t)); ("igst", PNum (igst t));
         ("other", PNum (other t))].

(** The stored payload [raw] carries the items [its], the taxes [tx] and
    the discount [disc], whatever its other fields are. *)
Definition normalised (raw : pyval) (its : list item) (tx : taxes) (disc : Q)
  : Prop :=
  exists d,
    raw = PDict d /\
    assoc "items" d = Some (PList (map item_json its)) /\
    assoc "taxes" d = Some (taxes_json tx) /\
    assoc "discount" d = Some (PNum disc).

(** [subtotal = sum(price for each item)] *)
Definition sum_prices (its : list item) : Q :=
  fold_right (fun i acc => item_price i + acc) 0 its.

(** [itemizedTax = gst + cgst + sgst + igst + other] *)
Definition itemized_tax (tx : taxes) : Q :=
  gst tx + cgst tx + sgst tx + igst tx + other tx.

(** A payload with the given line items, taxes and discount. *)
Definition payload (its : list item) (tx : taxes) (disc : Q) : pyval :=
  PDict [("items", PList (map item_json its));
         ("taxes", taxes_json tx);
         ("discount", PNum disc)].

Definition no_taxes : taxes :=
  {| gst := 0; cgst := 0; sgst := 0; igst := 0; other := 0 |}.

(** [dq s] is [s] with every apostrophe replaced by a double quote: the way
    JSON texts are written in the examples. *)
Definition dq (s : string) : string :=
  string_of_list_ascii
    (map (fun c => if Ascii.eqb c "'" then PyLib.dquote else c)
       (list_ascii_of_string s)).

(** Payloads on which the History tab fails (claim C3). *)
Definition null_items_payload : pyval :=
  PDict [("merchant", PStr "Cafe"); ("total", PNum 50); ("items", PNone)].

Definition null_price_payload : pyval :=
  PDict [("merchant", PStr "Cafe"); ("total", PNum 50);
         ("items", PList [PDict [("name", PStr "tea"); ("price", PNone)]])].

Definition null_items_text : string :=
  dq "{'merchant': 'Cafe', 'total': 50, 'items': null}".

Definition null_price_text : string :=
  dq "{'merchant': 'Cafe', 'total': 50, 'items': [{'name': 'tea', 'price': null}]}".

(** A payload has the shape the History tab of milestone 2 relies on: a
    dict whose [items], when present, is a list of dicts and whose [taxes],
    when present, is a dict.  The values of the fields are arbitrary. *)
Definition is_dict (v : pyval) : Prop :=
  match v with PDict _ => True | _ => False end.

Definition well_shaped (raw : pyval) : Prop :=
  exists d,
    raw = PDict d /\
    match assoc "items" d with
    | None => True
    | Some (PList l) => Forall is_dict l
    | Some _ => False
    end /\
    match assoc "taxes" d with
    | None => True
    | Some v => is_dict v
    end.

(** Sample bills used to instantiate the theorems. *)
Definition tea_and_cake : list item :=
  [ {| item_name := "tea"; item_price := 40 |};
    {| item_name := "cake"; item_price := 50 |} ].

Definition gst_only (g : Q) : taxes :=
  {| gst := g; cgst := 0; sgst := 0; igst := 0; other := 0 |}.


(** ** Ingestion *)

(** The text answered by the model holds no recoverable JSON: no opening
    brace, no closing brace, or a text between the first opening brace and the
    last closing brace that the decoder rejects. *)
Definition no_recoverable_json (json_loads : string -> option pyval)
    (text : string) : Prop :=
  find_char "{" text = None \/
  rfind_char "}" text = None \/
  exists i j,
    find_char "{" text = Some i /\
    rfind_char "}" text = Some j /\
    json_loads (slice text i (j + 1)) = None.

(** The row that milestone 2 stores when nothing was extracted. *)
Definition blank_receipt (i : Z) (h : string) : receipt :=
  {| id := i; merchant := PStr "Unknown"; date_col := PNone; total := 0;
     currency := PStr EmptyString; category_col := Other;
     raw_json := PDict []; file_hash := h |}.

(** What the user can do to the table [receipts]: upload a file with either
    application, or press "Clear All Bills" (milestone 1, line 323). *)
Inductive action : Type :=
| Upload1 (h : string) (response : option string)
| Upload2 (h : string) (response : option string)
| ClearAll.

Definition delete_all (t : table) : table :=
  {| rows := []; last_id := last_id t |}.

Section Runs.

Variable json_loads : string -> option pyval.
Variable float_of_str : string -> option Q.
Variable fromisoformat : string -> option date.

Definition step (t : table) (a : action) : table :=
  match a with
  | Upload1 h response =>
      snd (M1.upload json_loads float_of_str fromisoformat t h response)
  | Upload2 h response =>
      snd (M2.upload json_loads float_of_str t h response)
  | ClearAll => delete_all t
  end.

Definition run (acts : list action) : table :=
  fold_left step acts empty_table.

End Runs.

(** Number of stored records with fingerprint [h]. *)
Definition count_hash (t : table) (h : string) : nat :=
  List.length (filter (fun r => String.eqb (file_hash r) h) (rows t)).

(** At most one record per fingerprint, as a property of a table. *)
Definition unique_hashes (t : table) : Prop :=
  NoDup (map file_hash (rows t)).

(** [datetime.fromisoformat] only builds valid dates. *)
Definition builds_valid_dates (fromisoformat : string -> option date) : Prop :=
  forall s d, fromisoformat s = Some d -> valid_date d = true.

(** The value of the field [date] of an extracted payload ([data.get("date")]). *)
Definition extracted_date (data : pyval) : pyval :=
  match data with
  | PDict d => match assoc "date" d with Some v => v | None => PNone end
  | _ => PNone
  end.

(** Section 4.2, [coerceDate]: the ISO date of a string that parses, absent
    otherwise. *)
Definition coerce_date (fromisoformat : string -> option date) (v : pyval)
  : pyval :=
  match v with
  | PStr s =>
      match fromisoformat s with
      | Some d => PStr (isoformat d)
      | None => PNone
      end
  | _ => PNone
  end.

(** A stored date is absent or a well-formed calendar date [YYYY-MM-DD]. *)
Definition well_formed_date (v : pyval) : Prop :=
  v = PNone \/
  exists s d, v = PStr s /\ PyLib.fromisoformat s = Some d /\ isoformat d = s.

Definition bad_date_text : string :=
  dq "{'merchant': 'Cafe', 'date': '31/02/2024', 'total': 10}".

Definition good_date_text : string :=
  dq "{'merchant': 'Cafe', 'date': '2024-02-29', 'total': 10}".

Definition refusal_text : string := "Sorry, I cannot process this image.".

Definition wrapped_text : string :=
  dq "Here is the receipt: {'merchant': 'City Mart', 'total': 12.5} Anything else?".

(** The MD5 digest of some uploaded file. *)
Definition sample_hash : string := "5d41402abc4b2a76b9719d911017c592".

(** The table after one successful upload with milestone 1. *)
Definition one_receipt : table :=
  run PyLib.json_loads PyLib.float_of_str PyLib.fromisoformat
    [Upload1 sample_hash (Some good_date_text)].

(** ** The classifier as section 4.1 states it *)

(** The categories in the order in which they are tested. *)
Definition priority : list category :=
  [Groceries; Medical; Restaurant; Travel; Utilities].

(** The keyword sets of milestone 1 and of milestone 2. *)
Definition keywords_m1 (c : category) : list string :=
  match c with
  | Groceries => ["grocery"; "mart"; "supermarket"; "basket"]
  | Medical => ["hospital"; "medical"; "pharmacy"; "clinic"]
  | Restaurant => ["hotel"; "restaurant"; "cafe"; "food"]
  | Travel => ["uber"; "ola"; "flight"; "rail"; "travel"]
  | Utilities => ["electricity"; "water"; "gas"; "bill"]
  | Other => []
  end.

Definition keywords_m2 (c : category) : list string :=
  match c with
  | Groceries => ["grocery"; "mart"; "supermarket"]
  | Medical => ["hospital"; "medical"; "pharmacy"]
  | Restaurant => ["restaurant"; "cafe"; "food"]
  | Travel => ["uber"; "ola"; "flight"; "rail"]
  | Utilities => ["electricity"; "water"; "gas"]
  | Other => []
  end.

(** [x] is a substring of [m]. *)
Definition occurs (x m : string) : Prop :=
  exists pre post, m = pre ++ x ++ post.

(** The merchant name [m] contains, whatever its case, a keyword of the
    category [c]. *)
Definition matches (kw : category -> list string) (c : category) (m : string)
  : Prop :=
  exists x, In x (kw c) /\ occurs x (lower m).

(** [c] is the first category in priority order that [m] matches, or
    [Other] when it matches none. *)
Definition classified (kw : category -> list string) (m : string)
    (c : category) : Prop :=
  (exists before after,
      priority = (before ++ c :: after)%list /\
      matches kw c m /\
      forall c', In c' before -> ~ matches kw c' m) \/
  (c = Other /\ forall c', ~ matches kw c' m).

(** The same, as a table look-up. *)
Definition table_classify (kw : category -> list string) (m : string)
  : category :=
  match find (fun c => any_in (kw c) (lower m)) priority with
  | Some c => c
  | None => Other
  end.

(** ** Payloads for the further properties *)

(** The five tax fields read by milestone 1. *)
Definition tax_names : list string := ["gst"; "cgst"; "sgst"; "igst"; "other"].

(** The taxes [tx] with one more line, named [k], of amount [x]. *)
Definition taxes_json_with (tx : taxes) (k : string) (x : Q) : pyval :=
  PDict [("gst", PNum (gst tx)); ("cgst", PNum (cgst tx));
         ("sgst", PNum (sgst tx)); ("igst", PNum (igst tx));
         ("other", PNum (other tx)); (k, PNum x)].

Definition payload_extra_tax (its : list item) (tx : taxes) (disc : Q)
    (k : string) (x : Q) : pyval :=
  PDict [("items", PList (map item_json its));
         ("taxes", taxes_json_with tx k x);
         ("discount", PNum disc)].

(** The keys of the table [receipts]: positive, increasing in the order of
    insertion, and at most the counter of the [AUTOINCREMENT] key. *)
Definition ids_increasing (t : table) : Prop :=
  StronglySorted Z.lt (map id (rows t)) /\
  Forall (fun r => (0 < id r <= last_id t)%Z) (rows t) /\
  (0 <= last_id t)%Z.

(** The total that milestone 1 stores for an extracted payload
    (lines 179-182 of app1.py). *)
Definition stored_total_m1 (float_of_str : string -> option Q) (data : pyval)
  : Q :=
  try_except (v <- py_get data "total" (PNum 0) ;; py_float float_of_str v) 0.

(** The extracted merchant, ["Unknown"] when the payload has none. *)
Definition extracted_merchant (data : pyval) : pyval :=
  match data with
  | PDict d =>
      match assoc "merchant" d with Some v => v | None => PStr "Unknown" end
  | _ => PStr "Unknown"
  end.


(** [isinstance(v, str)] *)
Definition is_str (v : pyval) : bool :=
  match v with PStr _ => true | _ => false end.

(** ** The table [bill_validation] of milestone 2 *)

(** A row of [bill_validation] (lines 36-43 of app2.py); [bill_id] is the
    primary key. *)
Record validation_row : Type := mkValidationRow {
  bill_id : Z;
  v_total : Q;
  v_calculated_total : Q;
  v_status : verdict
}.

(** [INSERT OR REPLACE INTO bill_validation VALUES (?, ?, ?, ?)]: the row
    with the same primary key, if any, is deleted and the new row is
    inserted.  The order in which [SELECT *] lists the rows is not modelled;
    the table is read by key. *)
Definition insert_or_replace (vt : list validation_row) (row : validation_row)
  : list validation_row :=
  (filter (fun r => negb (Z.eqb (bill_id r) (bill_id row))) vt ++ [row])%list.

Definition lookup_validation (vt : list validation_row) (b : Z)
  : option validation_row :=
  find (fun r => Z.eqb (bill_id r) b) vt.

Section History_store.

Variable float_of_str : string -> option Q.

(** History tab of milestone 2, lines 207-238: what is shown for the bill
    [b], and the table of verdicts afterwards. *)
Definition view_bill (t : table) (vt : list validation_row) (b : Z)
  : option (result validation) * list validation_row :=
  match rows t with
  | [] => (None, vt)
  | _ =>
      match find (fun r => Z.eqb (id r) b) (rows t) with
      | None => (None, vt)
      | Some r =>
          let bill_total := M2.safe_float float_of_str (PNum (total r)) in
          match M2.validate float_of_str bill_total (raw_json r) with
          | Ok v =>
              (Some (Ok v),
               insert_or_replace vt
                 {| bill_id := b; v_total := bill_total;
                    v_calculated_total := calculated_total v;
                    v_status := status v |})
          | Raise e => (Some (Raise e), vt)
          end
      end
  end.

(** The table of verdicts after the bills [bs] have been opened in turn. *)
Definition view_bills (t : table) (bs : list Z) : list validation_row :=
  fold_left (fun vt b => snd (view_bill t vt b)) bs [].

End History_store.

(** A table of receipts holding one bill that validates and one that
    raises. *)
Definition two_bills : table :=
  {| rows := [ {| id := 1; merchant := PStr "Cafe"; date_col := PNone;
                  total := 99; currency := PStr "INR";
                  category_col := Restaurant;
                  raw_json := payload tea_and_cake (gst_only 9) 0;
                  file_hash := sample_hash |};
               {| id := 2; merchant := PStr "Cafe"; date_col := PNone;
                  total := 50; currency := PStr "INR";
                  category_col := Restaurant;
                  raw_json := null_items_payload;
                  file_hash := "7d793037a0760186574b0282f2f435e7" |} ];
     last_id := 2 |}.

(** ** The Index Performance tab of milestone 2 *)

(** The two labels of [index_status], "Indexed" and "Missing". *)
Inductive index_label : Type := Indexed | Missing.

(** [index_status], lines 69-70 of app2.py:
    [value not in [None, "", "Unknown"]]. *)
Definition index_status (value : pyval) : index_label :=
  match value with
  | PNone => Missing
  | PStr s =>
      if String.eqb s EmptyString || String.eqb s "Unknown" then Missing
      else Indexed
  | _ => Indexed
  end.

(** Lines 273-294: the labels shown for the invoice number, the date and the
    vendor of the selected bill.  The outer [None] is the stop when no bill
    is stored; the inner [None] is the [IndexError] of [.iloc[0]] when no row
    has the selected id. *)
Definition index_tab (t : table) (b : Z)
  : option (option (index_label * index_label * index_label)) :=
  match rows t with
  | [] => None
  | _ =>
      Some (match find (fun r => Z.eqb (id r) b) (rows t) with
            | Some r =>
                Some (index_status (PNum (inject_Z (id r))),
                      index_status (date_col r),
                      index_status (merchant r))
            | None => None
            end)
  end.

(** A field of the payload is absent, null, empty or "Unknown". *)
Definition not_extracted (d : list (string * pyval)) (k : string) : Prop :=
  assoc k d = None \/ assoc k d = Some PNone \/
  assoc k d = Some (PStr EmptyString) \/ assoc k d = Some (PStr "Unknown").

(** * Properties *)

(** ** Arithmetic of the verdict *)

Lemma Qlt_bool_iff (a b : Q) : Qlt_bool a b = true <-> a < b.
Proof.
  unfold Qlt_bool. rewrite negb_true_iff.
  split; intro H.
  - apply Qnot_le_lt. intro Hle. apply Qle_bool_iff in Hle. congruence.
  - destruct (Qle_bool b a) eqn:E; [|reflexivity].
    apply Qle_bool_iff in E. apply Qle_not_lt in E. contradiction.
Qed.

Lemma Qlt_bool_false_iff (a b : Q) : Qlt_bool a b = false <-> ~ a < b.
Proof.
  rewrite <- Qlt_bool_iff. destruct (Qlt_bool a b); split; congruence.
Qed.

Lemma Qeq_bool_false_iff (a b : Q) : Qeq_bool a b = false <-> ~ a == b.
Proof.
  rewrite <- Qeq_bool_iff. destruct (Qeq_bool a b); split; congruence.
Qed.

Lemma status_of_passed (b c t : Q) :
  status_of b c t = PASSED <-> Qabs (b - c) <= t.
Proof.
  unfold status_of. rewrite <- Qle_bool_iff.
  destruct (Qle_bool (Qabs (b - c)) t); split; congruence.
Qed.

Lemma status_of_failed (b c t : Q) :
  status_of b c t = FAILED <-> t < Qabs (b - c).
Proof.
  unfold status_of. destruct (Qle_bool (Qabs (b - c)) t) eqn:E.
  - apply Qle_bool_iff in E. split; [discriminate|].
    intro H. apply Qle_not_lt in E. contradiction.
  - split; [intros _|reflexivity].
    apply Qnot_le_lt. intro H. apply Qle_bool_iff in H. congruence.
Qed.

Lemma tolerance_of_ge_2 (b : Q) : 2 <= tolerance_of b.
Proof. unfold tolerance_of. apply Q.le_max_l. Qed.

Lemma tolerance_of_ge_pct (b : Q) : (2 # 100) * b <= tolerance_of b.
Proof. unfold tolerance_of. apply Q.le_max_r. Qed.


(** ** Sums over the line items *)

Lemma sum_from_items (f : pyval -> result Q) (its : list item) :
  (forall i, f (item_json i) = Ok (item_price i)) ->
  forall acc, exists q,
    sum_from f (map item_json its) acc = Ok q /\ q == acc + sum_prices its.
Proof.
  intros Hf. induction its as [|i its IH]; intros acc; simpl.
  - exists acc. split; [reflexivity|]. lra.
  - rewrite Hf. destruct (IH (acc + item_price i)) as [q [Hq Heq]].
    exists q. split; [exact Hq|]. rewrite Heq. lra.
Qed.

(** Inversion of a successful sequence of [bind]s. *)
Ltac bind_inv H :=
  repeat match type of H with
         | bind ?r _ = Ok _ =>
             let E := fresh "E" in
             destruct r eqn:E; cbn [bind] in H; [|discriminate H]
         end.

Section Validation.

Variable float_of_str : string -> option Q.

Lemma M1_price_item (i : item) :
  M1.price float_of_str (item_json i) = Ok (item_price i).
Proof. reflexivity. Qed.

Lemma M2_price_item (i : item) :
  M2.price float_of_str (item_json i) = Ok (item_price i).
Proof. reflexivity. Qed.

(** The run of milestone 1 on a normalised payload, step by step. *)
Lemma M1_validate_normalised (bill_total : Q) (raw : pyval)
    (its : list item) (tx : taxes) (disc : Q) :
  normalised raw its tx disc ->
  exists sub,
    sub == sum_prices its /\
    M1.validate float_of_str bill_total raw =
    Ok (let tt := M1.infer_tax bill_total sub (itemized_tax tx) in
        let calc := sub + fst tt - disc in
        {| subtotal := sub;
           itemised_tax := itemized_tax tx;
           total_tax := fst tt;
           discount := disc;
           calculated_total := calc;
           tolerance := tolerance_of bill_total;
           status := status_of bill_total calc (tolerance_of bill_total);
           tax_inferred := snd tt;
           no_items := match its with [] => true | _ => false end |}).
Proof.
  intros (d & -> & Hi & Ht & Hd).
  unfold M1.validate. simpl py_get. rewrite Hi, Ht, Hd. simpl bind at 1.
  destruct its as [|i its].
  - exists 0. split; [reflexivity|]. simpl. unfold itemized_tax.
    destruct (M1.infer_tax bill_total 0 _); reflexivity.
  - destruct (sum_from_items (M1.price float_of_str) (i :: its) M1_price_item 0)
      as [q [Hq Heq]].
    exists q. split; [rewrite Heq; lra|].
    cbn [truthy map py_iter bind]. unfold py_sum.
    change (item_json i :: map item_json its) with (map item_json (i :: its)).
    rewrite Hq. simpl. unfold itemized_tax.
    destruct (M1.infer_tax bill_total q _); reflexivity.
Qed.

(** The run of milestone 2 on a normalised payload. *)
Lemma M2_validate_normalised (bill_total : Q) (raw : pyval)
    (its : list item) (tx : taxes) (disc : Q) :
  normalised raw its tx disc ->
  exists sub,
    sub == sum_prices its /\
    M2.validate float_of_str bill_total raw =
    Ok (let tt := 0 + gst tx + cgst tx + sgst tx + igst tx + other tx in
        let calc := sub + tt - disc in
        {| subtotal := sub;
           itemised_tax := tt;
           total_tax := tt;
           discount := disc;
           calculated_total := calc;
           tolerance := tolerance_of bill_total;
           status := status_of bill_total calc (tolerance_of bill_total);
           tax_inferred := false;
           no_items := false |}).
Proof.
  intros (d & -> & Hi & Ht & Hd).
  unfold M2.validate. simpl py_get. rewrite Hi, Ht, Hd.
  destruct (sum_from_items (M2.price float_of_str) its M2_price_item 0)
    as [q [Hq Heq]].
  exists q. split; [rewrite Heq; lra|].
  cbn [py_iter bind]. unfold py_sum. rewrite Hq. reflexivity.
Qed.

Lemma infer_tax_cases (bill_total sub it : Q) :
  (it == 0 /\ 0 < sub /\ 0 < bill_total - sub /\
   M1.infer_tax bill_total sub it = (bill_total - sub, true)) \/
  (~ (it == 0 /\ 0 < sub /\ 0 < bill_total - sub) /\
   M1.infer_tax bill_total sub it = (it, false)).
Proof.
  unfold M1.infer_tax.
  destruct (Qeq_bool it 0) eqn:E0; cbn [andb].
  - apply Qeq_bool_iff in E0.
    destruct (Qlt_bool 0 sub) eqn:E1.
    + apply Qlt_bool_iff in E1.
      destruct (Qlt_bool 0 (bill_total - sub)) eqn:E2.
      * apply Qlt_bool_iff in E2. left. auto.
      * apply Qlt_bool_false_iff in E2. right. split; [tauto|reflexivity].
    + apply Qlt_bool_false_iff in E1. right. split; [tauto|reflexivity].
  - apply Qeq_bool_false_iff in E0. right. split; [tauto|reflexivity].
Qed.

End Validation.

Lemma payload_normalised (its : list item) (tx : taxes) (disc : Q) :
  normalised (payload its tx disc) its tx disc.
Proof. eexists. repeat split; reflexivity. Qed.

(** ** The History tabs on binary64 amounts *)

Section Binary64_validation.

Import B64 N64.

Variable float_of_str : string -> option spec_float.
Variable show_table : pyval -> result unit.

Lemma same_refl (x : spec_float) : same x x.
Proof. left. reflexivity. Qed.

Lemma same_trans (x y z : spec_float) : same x y -> same y z -> same x z.
Proof.
  intros [->|[Hx Hy]] [->|[Hy' Hz]]; unfold same; auto.
Qed.

Lemma fadd_zero_l (x : spec_float) : same (fadd zero x) x.
Proof. destruct x as [[|]| | |]; unfold same; cbn; auto. Qed.

Lemma fadd_same_l (x x' y : spec_float) :
  same x x' -> same (fadd x y) (fadd x' y).
Proof.
  intros [->|[Hx Hx']]; [apply same_refl|].
  destruct x as [sx| | |]; try discriminate.
  destruct x' as [sx'| | |]; try discriminate.
  destruct y as [sy| | |]; [|left; reflexivity..].
  right. destruct sx, sx', sy; split; reflexivity.
Qed.

Lemma fadd_same_r (x y y' : spec_float) :
  same y y' -> same (fadd x y) (fadd x y').
Proof.
  intros [->|[Hy Hy']]; [apply same_refl|].
  destruct y as [sy| | |]; try discriminate.
  destruct y' as [sy'| | |]; try discriminate.
  destruct x as [sx| | |]; [|left; reflexivity..].
  right. destruct sx, sy, sy'; split; reflexivity.
Qed.

Lemma fsub_same_l (x x' y : spec_float) :
  same x x' -> same (fsub x y) (fsub x' y).
Proof.
  intros [->|[Hx Hx']]; [apply same_refl|].
  destruct x as [sx| | |]; try discriminate.
  destruct x' as [sx'| | |]; try discriminate.
  destruct y as [sy| | |]; [|left; reflexivity..].
  right. destruct sx, sx', sy; split; reflexivity.
Qed.


Lemma feq_zero (x : spec_float) : feq x zero = true -> is_zero x = true.
Proof. destruct x as [s|[|]| |[|] m e]; cbn; congruence. Qed.

Lemma py_float_amount (a : amount) :
  fits a = true -> py_float float_of_str (amount_json a) = Ok (value a).
Proof.
  destruct a as [n|x]; cbn [fits amount_json value py_float]; [|reflexivity].
  intros H. destruct (of_int n); try reflexivity; discriminate.
Qed.

Lemma safe_float_amount (a : amount) :
  fits a = true -> M2.safe_float float_of_str (amount_json a) = value a.
Proof.
  intros H. unfold M2.safe_float. rewrite py_float_amount by exact H.
  reflexivity.
Qed.

Lemma sum_from_amounts (f : pyval -> result spec_float) (its : list item) :
  (forall i, fits (item_price i) = true ->
             f (item_json i) = Ok (value (item_price i))) ->
  forallb (fun i => fits (item_price i)) its = true ->
  forall acc,
    sum_from f (map item_json its) acc =
    Ok (fold_left (fun acc i => fadd acc (value (item_price i))) its acc).
Proof.
  intros Hf. induction its as [|i its IH]; intros Hfit acc.
  - reflexivity.
  - cbn [forallb] in Hfit. apply andb_true_iff in Hfit as [Hi Hits].
    cbn [map sum_from fold_left]. rewrite (Hf i Hi). apply IH. exact Hits.
Qed.

Lemma M1_price_amount (i : item) :
  fits (item_price i) = true ->
  M1.price float_of_str (item_json i) = Ok (value (item_price i)).
Proof.
  intros H. unfold M1.price, item_json. cbn [py_get assoc String.eqb Ascii.eqb Bool.eqb bind].
  apply py_float_amount. exact H.
Qed.

Lemma M2_price_amount (i : item) :
  fits (item_price i) = true ->
  M2.price float_of_str (item_json i) = Ok (value (item_price i)).
Proof.
  intros H. unfold M2.price, item_json. cbn [py_get assoc String.eqb Ascii.eqb Bool.eqb bind].
  rewrite safe_float_amount by exact H. reflexivity.
Qed.

Lemma tax_field_amount (tx : taxes) (k : string) (a : amount) :
  fits a = true ->
  assoc k [("gst", amount_json (gst tx)); ("cgst", amount_json (cgst tx));
           ("sgst", amount_json (sgst tx)); ("igst", amount_json (igst tx));
           ("other", amount_json (other tx))] = Some (amount_json a) ->
  M1.tax_field float_of_str (taxes_json tx) k = Ok (value a).
Proof.
  intros Hfit Hk. unfold M1.tax_field, taxes_json. cbn [py_get].
  rewrite Hk. cbn [bind]. apply py_float_amount. exact Hfit.
Qed.

(** The run of milestone 1 on a normalised payload whose line items are
    displayed, step by step. *)
Lemma M1_validate_binary64 (bill_total : spec_float) (raw : pyval)
    (its : list item) (tx : taxes) (disc : amount) :
  normalised raw its tx disc ->
  show_table (PList (map item_json its)) = Ok tt ->
  M1.validate float_of_str show_table bill_total raw =
  Ok (let sub := sum_prices its in
      let tt := M1.infer_tax bill_total sub (itemized_tax tx) in
      let calc := fsub (fadd sub (fst tt)) (value disc) in
      {| subtotal := sub;
         itemised_tax := itemized_tax tx;
         total_tax := fst tt;
         discount := value disc;
         calculated_total := calc;
         tolerance := tolerance_of bill_total;
         status := status_of bill_total calc (tolerance_of bill_total);
         tax_inferred := snd tt;
         no_items := match its with [] => true | _ => false end |}).
Proof.
  intros ((d & -> & Hi & Ht & Hd) & Hits & Htx & Hdisc) Hshow.
  unfold fit_taxes in Htx.
  repeat (apply andb_true_iff in Htx as [Htx ?]).
  unfold M1.validate. cbn [py_get]. rewrite Hi, Ht, Hd. cbn [bind].
  assert (Hsub :
    (if truthy (PList (map item_json its))
     then (_ <- show_table (PList (map item_json its)) ;;
           l <- py_iter (PList (map item_json its)) ;;
           py_sum (M1.price float_of_str) l)
     else Ok zero) = Ok (sum_prices its)).
  { destruct its as [|i its]; [reflexivity|].
    cbn [truthy map]. change (item_json i :: map item_json its)
      with (map item_json (i :: its)).
    rewrite Hshow. cbn [bind py_iter]. unfold py_sum.
    apply sum_from_amounts; [intros; apply M1_price_amount; assumption|exact Hits]. }
  rewrite Hsub. cbn [bind].
  rewrite (tax_field_amount tx "gst" (gst tx)) by (assumption || reflexivity).
  rewrite (tax_field_amount tx "cgst" (cgst tx)) by (assumption || reflexivity).
  rewrite (tax_field_amount tx "sgst" (sgst tx)) by (assumption || reflexivity).
  rewrite (tax_field_amount tx "igst" (igst tx)) by (assumption || reflexivity).
  rewrite (tax_field_amount tx "other" (other tx)) by (assumption || reflexivity).
  cbn [bind]. fold (itemized_tax tx).
  destruct (M1.infer_tax bill_total (sum_prices its) (itemized_tax tx))
    as [t inf].
  rewrite (py_float_amount disc Hdisc). cbn [bind fst snd].
  destruct its; reflexivity.
Qed.

(** The run of milestone 2 on a normalised payload whose line items are
    displayed: the taxes are added from the integer 0. *)
Lemma M2_validate_binary64 (bill_total : spec_float) (raw : pyval)
    (its : list item) (tx : taxes) (disc : amount) :
  normalised raw its tx disc ->
  show_table (PList (map item_json its)) = Ok tt ->
  M2.validate float_of_str show_table bill_total raw =
  Ok (let sub := sum_prices its in
      let tt :=
        fadd (fadd (fadd (fadd (fadd zero (value (gst tx))) (value (cgst tx)))
                      (value (sgst tx))) (value (igst tx)))
          (value (other tx)) in
      let calc := fsub (fadd sub tt) (value disc) in
      {| subtotal := sub;
         itemised_tax := tt;
         total_tax := tt;
         discount := value disc;
         calculated_total := calc;
         tolerance := tolerance_of bill_total;
         status := status_of bill_total calc (tolerance_of bill_total);
         tax_inferred := false;
         no_items := false |}).
Proof.
  intros ((d & -> & Hi & Ht & Hd) & Hits & Htx & Hdisc) Hshow.
  unfold fit_taxes in Htx.
  repeat (apply andb_true_iff in Htx as [Htx ?]).
  unfold M2.validate. cbn [py_get]. rewrite Hi, Ht, Hd. cbn [bind].
  rewrite Hshow. cbn [bind py_iter]. unfold py_sum at 1.
  rewrite (sum_from_amounts (M2.price float_of_str) its)
    by (try exact Hits; intros; apply M2_price_amount; assumption).
  cbn [bind taxes_json py_values map snd py_sum sum_from].
  rewrite !safe_float_amount by assumption.
  reflexivity.
Qed.

Lemma M2_itemised_same (tx : taxes) :
  same
    (fadd (fadd (fadd (fadd (fadd zero (value (gst tx))) (value (cgst tx)))
                   (value (sgst tx))) (value (igst tx)))
       (value (other tx)))
    (itemized_tax tx).
Proof.
  unfold itemized_tax. do 4 apply fadd_same_l. apply fadd_zero_l.
Qed.

(** The fallback of milestone 1 is the one of section 4.4. *)
Lemma infer_tax_fallback (bill_total sub it : spec_float) :
  same (fst (M1.infer_tax bill_total sub it))
       (fst (tax_fallback bill_total sub it)) /\
  snd (M1.infer_tax bill_total sub it) = snd (tax_fallback bill_total sub it).
Proof.
  unfold M1.infer_tax, tax_fallback.
  destruct (feq it zero) eqn:E0; cbn [andb]; [|split; [apply same_refl|reflexivity]].
  destruct (flt zero sub); [|split; [apply same_refl|reflexivity]].
  destruct (flt zero (fsub bill_total sub)); cbn [fst snd];
    (split; [|reflexivity]); [apply same_refl|].
  right. split; [apply feq_zero; exact E0|reflexivity].
Qed.

Lemma verdict_passed (b c t : spec_float) :
  status_of b c t = PASSED <-> fle (fabs (fsub b c)) t = true.
Proof.
  unfold status_of. destruct (fle (fabs (fsub b c)) t); split; congruence.
Qed.

(** C1.  For every normalised input, both applications compute the
    subtotal as the sum of the item prices, the itemised tax as
    gst + cgst + sgst + igst + other, the calculated total as
    subtotal + effective tax - discount, the tolerance as
    max(2, 0.02 * claimed total), from the claimed total, and the verdict
    PASSED exactly when |claimed - calculated| <= tolerance; all of it in
    binary64 arithmetic.  The effective tax is the one of the fallback in
    milestone 1 and the itemised tax in milestone 2. *)
Theorem reconciliation_formulas (bill_total : spec_float) (raw : pyval)
    (its : list item) (tx : taxes) (disc : amount) :
  normalised raw its tx disc ->
  show_table (PList (map item_json its)) = Ok tt ->
  exists v1 v2,
    M1.validate float_of_str show_table bill_total raw = Ok v1 /\
    M2.validate float_of_str show_table bill_total raw = Ok v2 /\
    reconciles bill_total its tx disc
      (fst (tax_fallback bill_total (sum_prices its) (itemized_tax tx))) v1 /\
    reconciles bill_total its tx disc (itemized_tax tx) v2.
Proof.
  intros Hn Hshow.
  eexists. eexists.
  split; [apply M1_validate_binary64; eassumption|].
  split; [apply M2_validate_binary64; eassumption|].
  unfold reconciles;
    cbn [subtotal itemised_tax total_tax discount calculated_total tolerance
         status fst snd].
  destruct (infer_tax_fallback bill_total (sum_prices its) (itemized_tax tx))
    as [Hfst _].
  pose proof (M2_itemised_same tx) as Hm2.
  split.
  - split; [apply same_refl|]. split; [apply same_refl|].
    split; [exact Hfst|]. split; [apply same_refl|].
    split; [apply fsub_same_l, fadd_same_r; exact Hfst|].
    split; [reflexivity|]. apply verdict_passed.
  - split; [apply same_refl|]. split; [exact Hm2|].
    split; [exact Hm2|]. split; [apply same_refl|].
    split; [apply fsub_same_l, fadd_same_r; exact Hm2|].
    split; [reflexivity|]. apply verdict_passed.
Qed.

(** C2 (amended).  In milestone 1 the fallback applies exactly when the
    itemised tax is 0 and the subtotal is positive: with
    inferred = claimed - subtotal, the tax is inferred and flagged when
    inferred > 0 and is 0 otherwise; in the scenario of section 8 the
    result is subtotal 90, tax 9, calculated total 99, PASSED, inferred.
    Milestone 2 has no fallback: its tax is always the itemised sum and is
    never flagged as inferred. *)
Theorem tax_inference_fallback :
  (forall bill_total raw its tx disc,
      normalised raw its tx disc ->
      show_table (PList (map item_json its)) = Ok tt ->
      exists v,
        M1.validate float_of_str show_table bill_total raw = Ok v /\
        same (total_tax v)
          (fst (tax_fallback bill_total (sum_prices its) (itemized_tax tx))) /\
        tax_inferred v
        = snd (tax_fallback bill_total (sum_prices its) (itemized_tax tx))) /\
  (show_table (PList (map item_json (one_item (Int 90)))) = Ok tt ->
   exists v,
      M1.validate float_of_str show_table (of_int 99)
        (payload (one_item (Int 90)) no_taxes (Int 0)) = Ok v /\
      subtotal v = of_int 90 /\ itemised_tax v = zero /\
      total_tax v = of_int 9 /\ calculated_total v = of_int 99 /\
      status v = PASSED /\ tax_inferred v = true) /\
  (forall bill_total raw its tx disc,
      normalised raw its tx disc ->
      show_table (PList (map item_json its)) = Ok tt ->
      exists v,
        M2.validate float_of_str show_table bill_total raw = Ok v /\
        same (total_tax v) (itemized_tax tx) /\ tax_inferred v = false).
Proof.
  split; [|split].
  - intros bill_total raw its tx disc Hn Hshow.
    eexists. split; [apply M1_validate_binary64; eassumption|].
    cbn [total_tax tax_inferred]. apply infer_tax_fallback.
  - intros Hshow.
    eexists. split.
    + apply (M1_validate_binary64 (of_int 99) _ (one_item (Int 90))
               no_taxes (Int 0)); [|exact Hshow].
      split; [eexists; repeat split; reflexivity|].
      repeat split; reflexivity.
    + cbn [subtotal itemised_tax total_tax calculated_total status
           tax_inferred].
      repeat split; vm_compute; reflexivity.
  - intros bill_total raw its tx disc Hn Hshow.
    eexists. split; [apply M2_validate_binary64; eassumption|].
    cbn [total_tax tax_inferred]. split; [apply M2_itemised_same|reflexivity].
Qed.





End Binary64_validation.

Lemma payload_normalised64 (its : list N64.item) (tx : N64.taxes)
    (disc : N64.amount) :
  forallb (fun i => N64.fits (N64.item_price i)) its = true ->
  N64.fit_taxes tx = true ->
  N64.fits disc = true ->
  N64.normalised (N64.payload its tx disc) its tx disc.
Proof.
  intros H1 H2 H3. split; [|auto].
  eexists. repeat split; reflexivity.
Qed.

(** Witness of [reconciliation_formulas]: a bill of two items with GST. *)
Lemma reconciliation_formulas_witness :
  N64.normalised (N64.payload N64.tea_and_cake (N64.gst_only (N64.Int 9))
                    (N64.Int 0))
    N64.tea_and_cake (N64.gst_only (N64.Int 9)) (N64.Int 0) /\
  N64.shown (B64.PList (map N64.item_json N64.tea_and_cake)) = Ok tt /\
  exists v1 v2,
    B64.M1.validate N64.float_of_str N64.shown (B64.of_int 99)
      (N64.payload N64.tea_and_cake (N64.gst_only (N64.Int 9)) (N64.Int 0))
      = Ok v1 /\
    B64.M2.validate N64.float_of_str N64.shown (B64.of_int 99)
      (N64.payload N64.tea_and_cake (N64.gst_only (N64.Int 9)) (N64.Int 0))
      = Ok v2 /\
    N64.reconciles (B64.of_int 99) N64.tea_and_cake
      (N64.gst_only (N64.Int 9)) (N64.Int 0)
      (fst (N64.tax_fallback (B64.of_int 99)
              (N64.sum_prices N64.tea_and_cake)
              (N64.itemized_tax (N64.gst_only (N64.Int 9))))) v1 /\
    N64.reconciles (B64.of_int 99) N64.tea_and_cake
      (N64.gst_only (N64.Int 9)) (N64.Int 0)
      (N64.itemized_tax (N64.gst_only (N64.Int 9))) v2.
Proof.
  assert (Hn : N64.normalised
                 (N64.payload N64.tea_and_cake (N64.gst_only (N64.Int 9))
                    (N64.Int 0))
                 N64.tea_and_cake (N64.gst_only (N64.Int 9)) (N64.Int 0)).
  { apply payload_normalised64; reflexivity. }
  assert (Hs : N64.shown (B64.PList (map N64.item_json N64.tea_and_cake))
               = Ok tt) by reflexivity.
  split; [exact Hn|]. split; [exact Hs|].
  exact (reconciliation_formulas N64.float_of_str N64.shown (B64.of_int 99)
           _ _ _ _ Hn Hs).
Defined.

(** Witness of [tax_inference_fallback]: two items and no tax lines,
    claimed total 99. *)
Lemma tax_inference_fallback_witness :
  N64.normalised (N64.payload N64.tea_and_cake N64.no_taxes (N64.Int 0))
    N64.tea_and_cake N64.no_taxes (N64.Int 0) /\
  N64.shown (B64.PList (map N64.item_json N64.tea_and_cake)) = Ok tt /\
  exists v,
    B64.M1.validate N64.float_of_str N64.shown (B64.of_int 99)
      (N64.payload N64.tea_and_cake N64.no_taxes (N64.Int 0)) = Ok v /\
    N64.same (B64.total_tax v)
      (fst (N64.tax_fallback (B64.of_int 99)
              (N64.sum_prices N64.tea_and_cake)
              (N64.itemized_tax N64.no_taxes))) /\
    B64.tax_inferred v
    = snd (N64.tax_fallback (B64.of_int 99)
             (N64.sum_prices N64.tea_and_cake)
             (N64.itemized_tax N64.no_taxes)).
Proof.
  assert (Hn : N64.normalised
                 (N64.payload N64.tea_and_cake N64.no_taxes (N64.Int 0))
                 N64.tea_and_cake N64.no_taxes (N64.Int 0)).
  { apply payload_normalised64; reflexivity. }
  assert (Hs : N64.shown (B64.PList (map N64.item_json N64.tea_and_cake))
               = Ok tt) by reflexivity.
  split; [exact Hn|]. split; [exact Hs|].
  exact (proj1 (tax_inference_fallback N64.float_of_str N64.shown)
           (B64.of_int 99) _ _ _ _ Hn Hs).
Defined.

(** C2, counterexample.  On the scenario of section 8, milestone 2 infers no
    tax: the calculated total stays at 90 and the verdict is FAILED. *)
Lemma tax_inference_absent_m2 :
  exists v,
    B64.M2.validate N64.float_of_str N64.shown (B64.of_int 99)
      (N64.payload (N64.one_item (N64.Int 90)) N64.no_taxes (N64.Int 0))
      = Ok v /\
    B64.subtotal v = B64.of_int 90 /\ B64.total_tax v = B64.zero /\
    B64.calculated_total v = B64.of_int 90 /\
    B64.status v = FAILED /\ B64.tax_inferred v = false.
Proof.
  eexists. split; [reflexivity|].
  repeat split; vm_compute; reflexivity.
Qed.



(** The arithmetic of [SpecFloat] agrees with the machine floats on the
    amounts of the examples: 4.15 - (1.15 + 1), 0.03 + (0.3 - 0.03) and
    0.8 - (0.7 + 0.1). *)
Example machine_floats_agree :
  Prim2SF (415 / 100 - (0 + 115 / 100 + 1 - 0))%float
  = B64.fsub (N64.cents 415)
      (B64.fsub (B64.fadd (B64.fadd B64.zero (N64.cents 115)) B64.one)
         B64.zero) /\
  Prim2SF (3 / 100 + (30 / 100 - 3 / 100))%float
  = B64.fadd (N64.cents 3) (B64.fsub (N64.cents 30) (N64.cents 3)) /\
  Prim2SF (80 / 100 - (70 / 100 + 10 / 100))%float
  = B64.fsub (N64.cents 80) (B64.fadd (N64.cents 70) (N64.cents 10)) /\
  Prim2SF (0x1.47ae147ae147bp-6 * 100)%float
  = B64.fmul B64.two_percent (B64.of_int 100).
Proof. vm_compute. repeat split. Qed.

(** At the edge of the band the rounding decides: one item of 1.15 and a
    GST of 1 against a claimed total of 4.15 differ by
    2.0000000000000004, and both applications say FAILED. *)
Example band_edge_rounding :
  exists v1 v2,
    B64.M1.validate N64.float_of_str N64.shown (N64.cents 415)
      (N64.payload (N64.one_item (N64.Flt (N64.cents 115)))
         (N64.gst_only (N64.Int 1)) (N64.Int 0)) = Ok v1 /\
    B64.M2.validate N64.float_of_str N64.shown (N64.cents 415)
      (N64.payload (N64.one_item (N64.Flt (N64.cents 115)))
         (N64.gst_only (N64.Int 1)) (N64.Int 0)) = Ok v2 /\
    B64.status v1 = FAILED /\ B64.status v2 = FAILED /\
    B64.flt B64.two
      (B64.fabs (B64.fsub (N64.cents 415) (B64.calculated_total v2))) = true.
Proof.
  eexists. eexists. split; [reflexivity|]. split; [reflexivity|].
  repeat split; vm_compute; reflexivity.
Qed.

(** Items of 0.70 and 0.10 against a claimed total of 0.80, no tax lines:
    the subtotal is 0.7999999999999999 and milestone 1 infers a tax of
    about 1.1e-16. *)
Example rounding_infers_tax :
  exists v,
    B64.M1.validate N64.float_of_str N64.shown (N64.cents 80)
      (N64.payload
         [ {| N64.item_name := "a"; N64.item_price := N64.Flt (N64.cents 70) |};
           {| N64.item_name := "b"; N64.item_price := N64.Flt (N64.cents 10) |} ]
         N64.no_taxes (N64.Int 0)) = Ok v /\
    B64.tax_inferred v = true /\
    B64.total_tax v = S754_finite false 4503599627370496 (-105).
Proof.
  eexists. split; [reflexivity|]. split; vm_compute; reflexivity.
Qed.

(** ** Boundary of the tolerance, inferred tax, negative amounts *)

Section Verdicts.

Variable float_of_str : string -> option Q.

(** C9.  With a claimed total of 100 the tolerance is max(2, 2) = 2; a
    calculated total of exactly 98 is PASSED and one of 97.99 is FAILED:
    in the verdict function on rationals, in the same function on binary64
    floats (97.99 being the float nearest to it), and in both applications
    (items worth 90 and a GST of 8, respectively 7.99). *)
Theorem tolerance_boundary :
  tolerance_of 100 == 2 /\
  status_of 100 98 (tolerance_of 100) = PASSED /\
  status_of 100 (9799 # 100) (tolerance_of 100) = FAILED /\
  Binary64.tolerance_of 100%float = 2%float /\
  Binary64.status_of 100%float 98%float (Binary64.tolerance_of 100%float)
    = PASSED /\
  Binary64.status_of 100%float 0x1.87f5c28f5c28fp+6%float
    (Binary64.tolerance_of 100%float) = FAILED /\
  (exists v1 v2,
      M1.validate float_of_str 100 (payload tea_and_cake (gst_only 8) 0)
        = Ok v1 /\
      M2.validate float_of_str 100 (payload tea_and_cake (gst_only 8) 0)
        = Ok v2 /\
      calculated_total v1 == 98 /\ status v1 = PASSED /\
      calculated_total v2 == 98 /\ status v2 = PASSED) /\
  (exists v1 v2,
      M1.validate float_of_str 100
        (payload tea_and_cake (gst_only (799 # 100)) 0) = Ok v1 /\
      M2.validate float_of_str 100
        (payload tea_and_cake (gst_only (799 # 100)) 0) = Ok v2 /\
      calculated_total v1 == 9799 # 100 /\ status v1 = FAILED /\
      calculated_total v2 == 9799 # 100 /\ status v2 = FAILED).
Proof.
  do 6 (split; [vm_compute; reflexivity|]).
  split; (eexists; eexists; split; [reflexivity|]; split; [reflexivity|];
          cbn [calculated_total status]; repeat split; vm_compute; reflexivity).
Qed.


End Verdicts.



(** ** Amount coercion and malformed payloads *)

Lemma sum_from_total (f : pyval -> result Q) (l : list pyval) :
  Forall (fun x => exists q, f x = Ok q) l ->
  forall acc, exists q, sum_from f l acc = Ok q.
Proof.
  induction 1 as [|x l [q Hq] _ IH]; intros acc; simpl.
  - exists acc. reflexivity.
  - rewrite Hq. apply IH.
Qed.

Section Safe_float.

Variable float_of_str : string -> option Q.

(** [safe_float] returns what [float] returns, and 0 when [float] raises. *)
Lemma safe_float_cases (val : pyval) :
  (exists q, py_float float_of_str val = Ok q /\
             M2.safe_float float_of_str val = q) \/
  (exists e, py_float float_of_str val = Raise e /\
             M2.safe_float float_of_str val = 0).
Proof.
  unfold M2.safe_float.
  destruct (py_float float_of_str val) as [q|e]; simpl; eauto.
Qed.

Lemma safe_float_number (q : Q) : M2.safe_float float_of_str (PNum q) = q.
Proof. reflexivity. Qed.

Lemma safe_float_missing : M2.safe_float float_of_str PNone = 0.
Proof. reflexivity. Qed.

Lemma safe_float_malformed (s : string) :
  float_of_str s = None -> M2.safe_float float_of_str (PStr s) = 0.
Proof. intros H. unfold M2.safe_float. simpl. rewrite H. reflexivity. Qed.

Lemma safe_float_container (val : pyval) :
  bindable val = false -> M2.safe_float float_of_str val = 0.
Proof. destruct val; simpl; intros H; try discriminate; reflexivity. Qed.

(** Milestone 2 produces a verdict on every payload of the expected
    shape, whatever the values of its amount fields. *)
Lemma M2_validate_total (bill_total : Q) (raw : pyval) :
  well_shaped raw ->
  exists v, M2.validate float_of_str bill_total raw = Ok v.
Proof.
  intros (d & -> & Hi & Ht).
  unfold M2.validate. simpl py_get. cbn [bind].
  assert (Hitems : exists l,
             py_iter (match assoc "items" d with
                      | Some v => v | None => PList [] end) = Ok l /\
             Forall is_dict l).
  { destruct (assoc "items" d) as [[| | | |l|]|]; try contradiction.
    - exists l. split; [reflexivity|exact Hi].
    - exists []. split; [reflexivity|constructor]. }
  destruct Hitems as (l & -> & Hl). cbn [bind].
  assert (Hsum : exists q, py_sum (M2.price float_of_str) l = Ok q).
  { apply sum_from_total. eapply Forall_impl; [|exact Hl].
    intros [| | | | |d']; simpl; try contradiction.
    intros _. eexists. reflexivity. }
  destruct Hsum as [q ->]. cbn [bind].
  assert (Htax : exists vs,
             py_values (match assoc "taxes" d with
                        | Some v => v | None => PDict [] end) = Ok vs).
  { destruct (assoc "taxes" d) as [[| | | | |d']|]; try contradiction;
      eexists; reflexivity. }
  destruct Htax as [vs ->]. cbn [bind].
  assert (Hsum : exists q', py_sum (fun v => Ok (M2.safe_float float_of_str v)) vs
                            = Ok q').
  { apply sum_from_total. apply Forall_forall. intros x _. eexists. reflexivity. }
  destruct Hsum as [q' ->]. cbn [bind].
  eexists. reflexivity.
Qed.

End Safe_float.

(** C3.  The History tab raises on payloads that the extraction can
    return.  Milestone 2 coerces every amount with [safe_float] but iterates
    over [items] unguarded: a null [items] raises [TypeError], where
    milestone 1 tests [if items:] and goes on.  Milestone 1 converts the
    prices with a bare [float]: a null price raises [TypeError], where
    milestone 2 yields 0.  The first failure is reached from the answer of
    the model through the upload and History tabs. *)
Theorem reconciliation_raises_on_malformed_payload :
  (forall float_of_str bill_total,
      M2.validate float_of_str bill_total null_items_payload = Raise TypeError /\
      exists v, M1.validate float_of_str bill_total null_items_payload = Ok v) /\
  (forall float_of_str bill_total,
      M1.validate float_of_str bill_total null_price_payload = Raise TypeError /\
      exists v, M2.validate float_of_str bill_total null_price_payload = Ok v) /\
  M2.safe_json PyLib.json_loads null_items_text = null_items_payload /\
  M1.safe_json PyLib.json_loads null_price_text = null_price_payload /\
  (exists t,
      M2.upload PyLib.json_loads PyLib.float_of_str empty_table sample_hash
        (Some null_items_text) = (Saved, t) /\
      M2.history PyLib.float_of_str t 1 = Some (Raise TypeError)) /\
  (exists t,
      M1.upload PyLib.json_loads PyLib.float_of_str PyLib.fromisoformat
        empty_table sample_hash (Some null_price_text) = (Saved, t) /\
      M1.history PyLib.float_of_str t 1 = Some (Raise TypeError)).
Proof.
  split; [|split; [|split; [|split; [|split]]]].
  - intros f b. split; [reflexivity|]. eexists. reflexivity.
  - intros f b. split; [reflexivity|]. eexists. reflexivity.
  - vm_compute. reflexivity.
  - vm_compute. reflexivity.
  - eexists. split; vm_compute; reflexivity.
  - eexists. split; vm_compute; reflexivity.
Qed.

(** ** Extraction failures and the upload path *)

Section Ingestion.

Variable json_loads : string -> option pyval.
Variable float_of_str : string -> option Q.
Variable fromisoformat : string -> option date.

Local Abbreviation upload1 := (M1.upload json_loads float_of_str fromisoformat).
Local Abbreviation upload2 := (M2.upload json_loads float_of_str).

(** What [safe_json] computes before the [except] clause. *)
Lemma safe_json_attempt (text : string) :
  no_recoverable_json json_loads text ->
  exists e,
    (start <- str_index text "{" ;;
     last <- str_rindex text "}" ;;
     py_json_loads json_loads (slice text start (last + 1))) = Raise e.
Proof.
  unfold str_index, str_rindex, py_json_loads.
  intros [H|[H|(i & j & Hi & Hj & H)]].
  - rewrite H. eexists. reflexivity.
  - rewrite H. destruct (find_char "{" text); eexists; reflexivity.
  - rewrite Hi, Hj. simpl. rewrite H. eexists. reflexivity.
Qed.

Lemma M1_safe_json_failed (text : string) :
  no_recoverable_json json_loads text ->
  M1.safe_json json_loads text = PNone.
Proof.
  intros H. destruct (safe_json_attempt text H) as [e He].
  unfold M1.safe_json. rewrite He. reflexivity.
Qed.

Lemma M2_safe_json_failed (text : string) :
  no_recoverable_json json_loads text ->
  M2.safe_json json_loads text = PDict [].
Proof.
  intros H. destruct (safe_json_attempt text H) as [e He].
  unfold M2.safe_json. rewrite He. reflexivity.
Qed.

(** Conversely a text with recoverable JSON is decoded by both. *)
Lemma safe_json_decoded (text : string) (i j : nat) (v : pyval) :
  find_char "{" text = Some i ->
  rfind_char "}" text = Some j ->
  json_loads (slice text i (j + 1)) = Some v ->
  M1.safe_json json_loads text = v /\ M2.safe_json json_loads text = v.
Proof.
  intros Hi Hj H.
  unfold M1.safe_json, M2.safe_json, str_index, str_rindex, py_json_loads.
  rewrite Hi, Hj. simpl. rewrite H. split; reflexivity.
Qed.

(** C4 (amended).  On a text with no recoverable JSON, [safe_json] does not
    raise in either application.  In milestone 1 it returns [None], the
    upload stops and the table is unchanged.  In milestone 2 it returns the
    empty dict and the upload goes on: unless the file is a duplicate, a
    record with the default fields is stored. *)
Theorem unparseable_extraction (text : string) :
  no_recoverable_json json_loads text ->
  M1.safe_json json_loads text = PNone /\
  (forall t h,
      upload1 t h (Some text) =
      (if hash_present t h then DuplicateFile else ExtractionFailed, t)) /\
  M2.safe_json json_loads text = PDict [] /\
  (forall t h,
      upload2 t h (Some text) =
      if hash_present t h then (DuplicateFile, t)
      else (Saved, {| rows := rows t ++ [blank_receipt (last_id t + 1) h];
                      last_id := (last_id t + 1)%Z |})).
Proof.
  intros H.
  pose proof (M1_safe_json_failed text H) as H1.
  pose proof (M2_safe_json_failed text H) as H2.
  split; [exact H1|]. split; [|split; [exact H2|]].
  - intros t h. unfold M1.upload, M1.analyze_receipt. rewrite H1.
    destruct (hash_present t h); reflexivity.
  - intros t h. unfold M2.upload, M2.analyze_receipt. rewrite H2.
    destruct (hash_present t h) eqn:E; [reflexivity|].
    simpl. unfold insert_receipt. rewrite E. reflexivity.
Qed.

End Ingestion.

(** Witness of [unparseable_extraction]: the refusal of section 8. *)
Lemma unparseable_extraction_witness :
  no_recoverable_json PyLib.json_loads refusal_text /\
  M1.safe_json PyLib.json_loads refusal_text = PNone /\
  M1.upload PyLib.json_loads PyLib.float_of_str PyLib.fromisoformat
    empty_table sample_hash (Some refusal_text) = (ExtractionFailed, empty_table).
Proof.
  assert (H : no_recoverable_json PyLib.json_loads refusal_text).
  { left. reflexivity. }
  split; [exact H|].
  destruct (unparseable_extraction PyLib.json_loads PyLib.float_of_str
              PyLib.fromisoformat refusal_text H) as (H1 & H2 & _).
  split; [exact H1|]. exact (H2 empty_table sample_hash).
Defined.

(** JSON wrapped in prose is recovered by both applications. *)
Example wrapped_json_recovered :
  M1.safe_json PyLib.json_loads wrapped_text
  = PDict [("merchant", PStr "City Mart"); ("total", PNum (125 # 10))] /\
  M2.safe_json PyLib.json_loads wrapped_text
  = M1.safe_json PyLib.json_loads wrapped_text.
Proof. split; vm_compute; reflexivity. Qed.

(** C4, counterexample.  In milestone 2 the refusal of section 8 does not
    stop the upload: a record is created. *)
Lemma refusal_is_stored_m2 :
  M2.safe_json PyLib.json_loads refusal_text = PDict [] /\
  M2.upload PyLib.json_loads PyLib.float_of_str empty_table sample_hash
    (Some refusal_text)
  = (Saved, {| rows := [blank_receipt 1 sample_hash]; last_id := 1 |}).
Proof. split; reflexivity. Qed.

(** ** Uniqueness of the file fingerprint *)

Lemma insert_receipt_ok (t t' : table) (m d : pyval) (tot : Q) (c : pyval)
    (cat : category) (raw : pyval) (h : string) :
  insert_receipt t m d tot c cat raw h = Ok t' ->
  hash_present t h = false /\
  t' = {| rows := rows t ++
                  [ {| id := last_id t + 1; merchant := m; date_col := d;
                       total := tot; currency := c; category_col := cat;
                       raw_json := raw; file_hash := h |} ];
          last_id := (last_id t + 1)%Z |}.
Proof.
  unfold insert_receipt.
  destruct (negb (bindable m && bindable d && bindable c)); [discriminate|].
  destruct (hash_present t h); [discriminate|].
  intros H. injection H as <-. split; reflexivity.
Qed.

Lemma hash_present_false (t : table) (h : string) :
  hash_present t h = false <-> ~ In h (map file_hash (rows t)).
Proof.
  unfold hash_present. induction (rows t) as [|r l IH]; simpl.
  - split; [intros _ []|reflexivity].
  - rewrite orb_false_iff, IH, String.eqb_neq. tauto.
Qed.

Lemma unique_hashes_count (t : table) (h : string) :
  unique_hashes t -> (count_hash t h <= 1)%nat.
Proof.
  unfold unique_hashes, count_hash.
  induction (rows t) as [|r l IH]; simpl; intros Hnd; [lia|].
  inversion Hnd as [|x xs Hnotin Hnd']; subst.
  destruct (String.eqb (file_hash r) h) eqn:E; simpl; [|auto].
  apply String.eqb_eq in E. subst h.
  assert (Hnil : filter (fun r0 => String.eqb (file_hash r0) (file_hash r)) l = []).
  { clear -Hnotin. induction l as [|r' l IH]; simpl; [reflexivity|].
    destruct (String.eqb (file_hash r') (file_hash r)) eqn:E.
    - apply String.eqb_eq in E. exfalso. apply Hnotin. left. exact E.
    - apply IH. intros Hin. apply Hnotin. right. exact Hin. }
  rewrite Hnil. simpl. lia.
Qed.

Lemma unique_hashes_insert (t : table) (r : receipt) (i : Z) :
  unique_hashes t ->
  hash_present t (file_hash r) = false ->
  unique_hashes {| rows := rows t ++ [r]; last_id := i |}.
Proof.
  unfold unique_hashes. simpl. intros Hnd Hh.
  apply hash_present_false in Hh.
  rewrite map_app. simpl.
  apply NoDup_app; [exact Hnd|repeat constructor; intros []|].
  intros x Hx [<-|[]]. contradiction.
Qed.

Section Fingerprints.

Variable json_loads : string -> option pyval.
Variable float_of_str : string -> option Q.
Variable fromisoformat : string -> option date.

Local Abbreviation upload1 := (M1.upload json_loads float_of_str fromisoformat).
Local Abbreviation upload2 := (M2.upload json_loads float_of_str).

(** An upload leaves the table as it is or appends one record, with the
    fingerprint of the file, which no stored record had. *)
Lemma M1_upload_effect (t : table) (h : string) (response : option string) :
  snd (upload1 t h response) = t \/
  exists r,
    upload1 t h response
    = (Saved, {| rows := rows t ++ [r]; last_id := (last_id t + 1)%Z |}) /\
    file_hash r = h /\ hash_present t h = false.
Proof.
  unfold M1.upload.
  destruct (hash_present t h) eqn:E; [left; reflexivity|].
  destruct (negb (truthy (M1.analyze_receipt json_loads response)));
    [left; reflexivity|].
  match goal with
  | |- context [match ?x with Ok _ => _ | Raise _ => _ end] =>
      destruct x as [t'|e] eqn:Hx
  end; [|left; reflexivity].
  right.
  destruct (py_get _ "merchant" _) as [m|]; [|discriminate].
  cbn [bind] in Hx.
  destruct (M1.classify_category m) as [cat|]; [|discriminate].
  cbn [bind] in Hx.
  destruct (py_get _ "currency" _) as [c|]; [|discriminate].
  cbn [bind] in Hx.
  apply insert_receipt_ok in Hx. destruct Hx as [_ ->].
  eexists. split; [reflexivity|]. split; reflexivity.
Qed.

Lemma M2_upload_effect (t : table) (h : string) (response : option string) :
  snd (upload2 t h response) = t \/
  exists r,
    upload2 t h response
    = (Saved, {| rows := rows t ++ [r]; last_id := (last_id t + 1)%Z |}) /\
    file_hash r = h /\ hash_present t h = false.
Proof.
  unfold M2.upload.
  destruct (hash_present t h) eqn:E; [left; reflexivity|].
  match goal with
  | |- context [match ?x with Ok _ => _ | Raise _ => _ end] =>
      destruct x as [t'|e] eqn:Hx
  end; [|left; reflexivity].
  right.
  destruct (py_get _ "merchant" _) as [m|]; [|discriminate].
  cbn [bind] in Hx.
  destruct (M2.classify_category m) as [cat|]; [|discriminate].
  cbn [bind] in Hx.
  destruct (py_get _ "date" _) as [d|]; [|discriminate].
  cbn [bind] in Hx.
  destruct (py_get _ "total" _) as [tot|]; [|discriminate].
  cbn [bind] in Hx.
  destruct (py_get _ "currency" _) as [c|]; [|discriminate].
  cbn [bind] in Hx.
  apply insert_receipt_ok in Hx. destruct Hx as [_ ->].
  eexists. split; [reflexivity|]. split; reflexivity.
Qed.

Lemma step_unique (t : table) (a : action) :
  unique_hashes t ->
  unique_hashes (step json_loads float_of_str fromisoformat t a).
Proof.
  intros Hu. destruct a as [h r|h r|]; simpl.
  - destruct (M1_upload_effect t h r) as [->|(row & -> & <- & Hh)];
      [exact Hu|].
    apply unique_hashes_insert; assumption.
  - destruct (M2_upload_effect t h r) as [->|(row & -> & <- & Hh)];
      [exact Hu|].
    apply unique_hashes_insert; assumption.
  - constructor.
Qed.

Lemma fold_step_unique (acts : list action) (t : table) :
  unique_hashes t ->
  unique_hashes
    (fold_left (step json_loads float_of_str fromisoformat) acts t).
Proof.
  revert t. induction acts as [|a acts IH]; intros t Hu; simpl; [exact Hu|].
  apply IH. apply step_unique. exact Hu.
Qed.

(** C5.  A file whose fingerprint is already stored is rejected as a
    duplicate by both applications and the table is unchanged; after any
    sequence of uploads (and clearings) from the empty table, at most one
    record exists for each fingerprint. *)
Theorem fingerprint_unique :
  (forall t h response,
      hash_present t h = true ->
      upload1 t h response = (DuplicateFile, t) /\
      upload2 t h response = (DuplicateFile, t)) /\
  (forall acts h,
      (count_hash (run json_loads float_of_str fromisoformat acts) h <= 1)%nat).
Proof.
  split.
  - intros t h response H. unfold M1.upload, M2.upload. rewrite H.
    split; reflexivity.
  - intros acts h. apply unique_hashes_count. unfold run.
    apply fold_step_unique. constructor.
Qed.

End Fingerprints.

(** Witness of [fingerprint_unique]: the same file uploaded again. *)
Lemma fingerprint_unique_witness :
  hash_present one_receipt sample_hash = true /\
  M1.upload PyLib.json_loads PyLib.float_of_str PyLib.fromisoformat
    one_receipt sample_hash (Some good_date_text) = (DuplicateFile, one_receipt) /\
  M2.upload PyLib.json_loads PyLib.float_of_str
    one_receipt sample_hash (Some good_date_text) = (DuplicateFile, one_receipt).
Proof.
  split; [reflexivity|].
  exact (proj1 (fingerprint_unique PyLib.json_loads PyLib.float_of_str
                  PyLib.fromisoformat)
           one_receipt sample_hash (Some good_date_text) eq_refl).
Defined.

(** The duplicate scenario of section 8, across both applications. *)
Example duplicate_scenario :
  count_hash
    (run PyLib.json_loads PyLib.float_of_str PyLib.fromisoformat
       [Upload1 sample_hash (Some good_date_text);
        Upload1 sample_hash (Some good_date_text);
        Upload2 sample_hash (Some good_date_text)])
    sample_hash = 1%nat.
Proof. vm_compute. reflexivity. Qed.

(** ** Date coercion *)

Lemma digit_val_digit (n : N) :
  PyLib.digit_val (digit n) = Some (Z.of_N (n mod 10)).
Proof.
  unfold digit.
  assert (H : (n mod 10 < 10)%N) by (apply N.mod_lt; discriminate).
  generalize dependent (n mod 10)%N. intros k H.
  assert (C : (k = 0 \/ k = 1 \/ k = 2 \/ k = 3 \/ k = 4 \/
               k = 5 \/ k = 6 \/ k = 7 \/ k = 8 \/ k = 9)%N) by lia.
  repeat destruct C as [C|C]; rewrite C; reflexivity.
Qed.

Lemma two_digits_digit (n : N) :
  PyLib.two_digits (digit (n / 10)) (digit n) = Some (n mod 100)%N.
Proof.
  unfold PyLib.two_digits. rewrite !digit_val_digit. f_equal.
  pose proof (N.div_mod n 10 ltac:(discriminate)) as D1.
  pose proof (N.div_mod (n / 10) 10 ltac:(discriminate)) as D2.
  pose proof (N.mod_lt n 10 ltac:(discriminate)) as L1.
  pose proof (N.mod_lt (n / 10) 10 ltac:(discriminate)) as L2.
  apply N.mod_unique with (q := (n / 10 / 10)%N).
  - generalize dependent ((n / 10) mod 10)%N.
    generalize dependent (n mod 10)%N. intros. lia.
  - generalize dependent ((n / 10) mod 10)%N.
    generalize dependent (n / 10 / 10)%N.
    generalize dependent (n mod 10)%N.
    generalize dependent (n / 10)%N. intros. lia.
Qed.

Lemma days_in_month_le (y m : N) : (days_in_month y m <= 31)%N.
Proof.
  unfold days_in_month.
  destruct (m =? 2)%N; [destruct (is_leap y); lia|].
  destruct ((m =? 4) || (m =? 6) || (m =? 9) || (m =? 11))%N; lia.
Qed.

Lemma valid_date_bounds (d : date) :
  valid_date d = true ->
  (year d <= 9999 /\ month d <= 12 /\ day d <= 31)%N.
Proof.
  unfold valid_date. rewrite !andb_true_iff, !N.leb_le.
  pose proof (days_in_month_le (year d) (month d)). lia.
Qed.

(** The text written by [isoformat] for a valid date reads back as that
    date. *)
Lemma fromisoformat_isoformat (d : date) :
  valid_date d = true -> PyLib.fromisoformat (isoformat d) = Some d.
Proof.
  intros Hv. destruct (valid_date_bounds d Hv) as (Hy & Hm & Hd).
  unfold PyLib.fromisoformat.
  assert (E : PyLib.date_fields (isoformat d) = Some d).
  { unfold PyLib.date_fields, isoformat. cbn [list_ascii_of_string].
    replace (year d / 1000)%N with (year d / 100 / 10)%N
      by (rewrite N.Div0.div_div; reflexivity).
    simpl andb. cbv iota.
    rewrite !two_digits_digit.
    destruct d as [y m dd]; cbn [year month day] in *.
    f_equal. f_equal.
    - rewrite (N.mod_small (y / 100) 100)
        by (apply N.Div0.div_lt_upper_bound; lia).
      symmetry. apply N.div_mod. discriminate.
    - apply N.mod_small. lia.
    - apply N.mod_small. lia. }
  rewrite E, Hv. reflexivity.
Qed.

Lemma reference_builds_valid_dates : builds_valid_dates PyLib.fromisoformat.
Proof.
  intros s d. unfold PyLib.fromisoformat.
  destruct (PyLib.date_fields s) as [dt|]; [|discriminate].
  destruct (valid_date dt) eqn:E; [|discriminate].
  intros H. injection H as <-. exact E.
Qed.

Section Dates.

Variable json_loads : string -> option pyval.
Variable float_of_str : string -> option Q.
Variable fromisoformat : string -> option date.

Local Abbreviation upload1 := (M1.upload json_loads float_of_str fromisoformat).
Local Abbreviation upload2 := (M2.upload json_loads float_of_str).

(** Lines 184-187 of app1.py compute [coerce_date] of the extracted date. *)
Lemma M1_date_coerced (data : pyval) :
  try_except
    (v <- py_get data "date" PNone ;;
     d <- py_fromisoformat fromisoformat v ;;
     Ok (PStr (isoformat d)))
    PNone
  = coerce_date fromisoformat (extracted_date data).
Proof.
  destruct data as [| | | | |d]; try reflexivity.
  simpl. destruct (assoc "date" d) as [v|]; [|reflexivity].
  destruct v as [| | |s| |]; try reflexivity.
  simpl. destruct (fromisoformat s); reflexivity.
Qed.

Lemma coerce_date_well_formed (v : pyval) :
  builds_valid_dates fromisoformat ->
  well_formed_date (coerce_date fromisoformat v).
Proof.
  intros Hb. destruct v as [| | |s| |]; try (left; reflexivity).
  simpl. destruct (fromisoformat s) as [d|] eqn:E; [|left; reflexivity].
  right. exists (isoformat d), d. split; [reflexivity|].
  split; [|reflexivity].
  apply fromisoformat_isoformat. exact (Hb s d E).
Qed.

(** C7 (amended).  Milestone 1 coerces the extracted date: a record it
    saves holds the ISO text of the parsed date, or no date when the value
    is not a string or does not parse, so the stored date is never
    malformed.  Milestone 2 stores the extracted value as it is. *)
Theorem date_coercion :
  builds_valid_dates fromisoformat ->
  (forall t h response t',
      upload1 t h response = (Saved, t') ->
      exists r,
        rows t' = (rows t ++ [r])%list /\
        date_col r = coerce_date fromisoformat
                       (extracted_date (M1.analyze_receipt json_loads response)) /\
        well_formed_date (date_col r)) /\
  (forall t h response t',
      upload2 t h response = (Saved, t') ->
      exists r,
        rows t' = (rows t ++ [r])%list /\
        date_col r = extracted_date (M2.analyze_receipt json_loads response)).
Proof.
  intros Hb. split.
  - intros t h response t'. unfold M1.upload.
    destruct (hash_present t h); [discriminate|].
    destruct (negb (truthy (M1.analyze_receipt json_loads response)));
      [discriminate|].
    rewrite M1_date_coerced.
    match goal with
    | |- context [match ?x with Ok _ => _ | Raise _ => _ end] =>
        destruct x as [t''|e] eqn:Hx
    end; [|discriminate].
    intros H. injection H as <-.
    destruct (py_get _ "merchant" _) as [m|]; [|discriminate].
    cbn [bind] in Hx.
    destruct (M1.classify_category m) as [cat|]; [|discriminate].
    cbn [bind] in Hx.
    destruct (py_get _ "currency" _) as [c|]; [|discriminate].
    cbn [bind] in Hx.
    apply insert_receipt_ok in Hx. destruct Hx as [_ ->].
    eexists. split; [reflexivity|]. cbn [date_col].
    split; [reflexivity|]. apply coerce_date_well_formed. exact Hb.
  - intros t h response t'. unfold M2.upload.
    destruct (hash_present t h); [discriminate|].
    match goal with
    | |- context [match ?x with Ok _ => _ | Raise _ => _ end] =>
        destruct x as [t''|e] eqn:Hx
    end; [|discriminate].
    intros H. injection H as <-.
    destruct (M2.analyze_receipt json_loads response) as [| | | | |d];
      try discriminate.
    cbn [py_get bind] in Hx.
    destruct (M2.classify_category _) as [cat|]; [|discriminate].
    cbn [bind] in Hx.
    apply insert_receipt_ok in Hx. destruct Hx as [_ ->].
    eexists. split; [reflexivity|]. reflexivity.
Qed.

End Dates.

(** Witness of [date_coercion]: a receipt dated 2024-02-29 saved by
    milestone 1. *)
Lemma date_coercion_witness :
  builds_valid_dates PyLib.fromisoformat /\
  M1.upload PyLib.json_loads PyLib.float_of_str PyLib.fromisoformat
    empty_table sample_hash (Some good_date_text) = (Saved, one_receipt) /\
  exists r,
    rows one_receipt = (rows empty_table ++ [r])%list /\
    date_col r = coerce_date PyLib.fromisoformat
                   (extracted_date
                      (M1.analyze_receipt PyLib.json_loads (Some good_date_text))) /\
    well_formed_date (date_col r).
Proof.
  split; [exact reference_builds_valid_dates|].
  assert (E : M1.upload PyLib.json_loads PyLib.float_of_str PyLib.fromisoformat
                empty_table sample_hash (Some good_date_text)
              = (Saved, one_receipt)) by reflexivity.
  split; [exact E|].
  exact (proj1 (date_coercion PyLib.json_loads PyLib.float_of_str
                  PyLib.fromisoformat reference_builds_valid_dates)
           empty_table sample_hash (Some good_date_text) one_receipt E).
Defined.

(** The stored date of that receipt. *)
Example good_date_stored :
  map date_col (rows one_receipt) = [PStr "2024-02-29"].
Proof. vm_compute. reflexivity. Qed.

(** C7, counterexample.  Milestone 2 stores the invalid date 31/02/2024 of
    an extraction as it is. *)
Lemma malformed_date_stored_m2 :
  exists r,
    M2.upload PyLib.json_loads PyLib.float_of_str empty_table sample_hash
      (Some bad_date_text) = (Saved, {| rows := [r]; last_id := 1 |}) /\
    date_col r = PStr "31/02/2024" /\
    PyLib.fromisoformat "31/02/2024" = None /\
    ~ well_formed_date (date_col r).
Proof.
  eexists. split; [vm_compute; reflexivity|]. cbn [date_col].
  split; [reflexivity|]. split; [reflexivity|].
  intros [H|(s & d & H & Hp & _)]; [discriminate|].
  injection H as <-. discriminate Hp.
Qed.

(** ** The category classifier *)

Lemma prefix_app (x m : string) :
  prefix x m = true <-> exists post, m = x ++ post.
Proof.
  revert m. induction x as [|a x IH]; intros m.
  - split; [intros _; exists m; reflexivity|destruct m; reflexivity].
  - destruct m as [|b m]; simpl.
    + split; [discriminate|intros [post H]; discriminate].
    + destruct (ascii_dec a b) as [->|Hab].
      * rewrite IH. split; intros [post H]; exists post.
        -- rewrite H. reflexivity.
        -- injection H as H. exact H.
      * split; [discriminate|].
        intros [post H]. injection H as H1 H2. congruence.
Qed.

Lemma str_in_unfold (x m : string) :
  str_in x m =
  if prefix x m then true
  else match m with
       | EmptyString => false
       | String _ m' => str_in x m'
       end.
Proof. destruct m; reflexivity. Qed.

Lemma str_in_occurs (x m : string) : str_in x m = true <-> occurs x m.
Proof.
  unfold occurs. split.
  - induction m as [|a m IH]; rewrite str_in_unfold;
      destruct (prefix x _) eqn:E.
    + intros _. apply prefix_app in E. destruct E as [post E].
      exists EmptyString, post. exact E.
    + discriminate.
    + intros _. apply prefix_app in E. destruct E as [post E].
      exists EmptyString, post. exact E.
    + intros H. destruct (IH H) as (pre & post & ->).
      exists (String a pre), post. reflexivity.
  - intros (pre & post & ->).
    induction pre as [|a pre IH]; rewrite str_in_unfold.
    + replace (prefix x (EmptyString ++ x ++ post)) with true; [reflexivity|].
      symmetry. apply prefix_app. exists post. reflexivity.
    + destruct (prefix x _); [reflexivity|]. exact IH.
Qed.

Lemma any_in_matches (kw : category -> list string) (c : category) (m : string) :
  any_in (kw c) (lower m) = true <-> matches kw c m.
Proof.
  unfold any_in, matches. rewrite existsb_exists.
  split; intros (x & Hx & H); exists x; (split; [exact Hx|]);
    apply str_in_occurs; exact H.
Qed.

Lemma find_first {A : Type} (f : A -> bool) (l : list A) :
  match find f l with
  | Some c =>
      exists before after,
        l = (before ++ c :: after)%list /\ f c = true /\
        forall c', In c' before -> f c' = false
  | None => forall c, In c l -> f c = false
  end.
Proof.
  induction l as [|a l IH]; simpl.
  - intros c [].
  - destruct (f a) eqn:E.
    + exists [], l. split; [reflexivity|]. split; [exact E|intros c' []].
    + destruct (find f l) as [c|].
      * destruct IH as (before & after & -> & Hc & Hb).
        exists (a :: before), after. split; [reflexivity|].
        split; [exact Hc|]. intros c' [<-|Hin]; [exact E|auto].
      * intros c [<-|Hin]; [exact E|auto].
Qed.

Lemma table_classify_classified (kw : category -> list string) (m : string) :
  kw Other = [] -> classified kw m (table_classify kw m).
Proof.
  intros Hother. unfold table_classify, classified.
  pose proof (find_first (fun c => any_in (kw c) (lower m)) priority) as H.
  destruct (find _ priority) as [c|].
  - left. destruct H as (before & after & E & Hc & Hb).
    exists before, after. split; [exact E|].
    split; [apply any_in_matches; exact Hc|].
    intros c' Hin Hm. apply any_in_matches in Hm.
    rewrite (Hb c' Hin) in Hm. discriminate.
  - right. split; [reflexivity|].
    intros c' Hm.
    assert (Hc : c' = Other \/ In c' priority).
    { destruct c'; simpl; tauto. }
    destruct Hc as [->|Hin].
    + destruct Hm as (x & Hx & _). rewrite Hother in Hx. destruct Hx.
    + apply any_in_matches in Hm. rewrite (H c' Hin) in Hm. discriminate.
Qed.

(** A category that is matched is never [Other]. *)
Lemma classified_other (kw : category -> list string) (m : string)
    (c : category) :
  kw Other = [] ->
  classified kw m c ->
  ((exists c', matches kw c' m) -> c <> Other) /\
  ((forall c', ~ matches kw c' m) -> c = Other).
Proof.
  intros Hother [(before & after & E & Hm & Hb)|[-> Hno]].
  - split.
    + intros _ ->. destruct Hm as (x & Hx & _). rewrite Hother in Hx.
      destruct Hx.
    + intros Hno. exfalso. exact (Hno c Hm).
  - split; [|reflexivity].
    intros [c' Hm] _. exact (Hno c' Hm).
Qed.

(** The nested tests of the source are the table look-up. *)
Lemma M1_classify_table (s : string) :
  M1.classify_category (PStr s) = Ok (table_classify keywords_m1 s).
Proof.
  unfold M1.classify_category, table_classify.
  destruct s as [|a s]; [reflexivity|].
  cbn [truthy String.eqb negb py_lower bind find priority keywords_m1].
  repeat match goal with
         | |- context [any_in ?l ?m] => destruct (any_in l m); try reflexivity
         end.
Qed.

Lemma M2_classify_table (s : string) :
  M2.classify_category (PStr s) = Ok (table_classify keywords_m2 s).
Proof.
  unfold M2.classify_category, table_classify.
  destruct s as [|a s]; [reflexivity|].
  cbn [truthy String.eqb negb py_lower bind find priority keywords_m2].
  repeat match goal with
         | |- context [any_in ?l ?m] => destruct (any_in l m); try reflexivity
         end.
Qed.

(** C8.  On every merchant string both classifiers return a category
    (they are total functions): the first category, in the order Groceries,
    Medical, Restaurant, Travel, Utilities, one of whose keywords occurs in
    the lower-cased name, and Other when none occurs or the name is empty or
    absent; a name containing a keyword never yields Other; names that
    differ only by case get the same category. *)
Theorem category_classifier (s : string) :
  (exists c1 c2,
      M1.classify_category (PStr s) = Ok c1 /\
      M2.classify_category (PStr s) = Ok c2 /\
      classified keywords_m1 s c1 /\
      classified keywords_m2 s c2 /\
      ((exists c, matches keywords_m1 c s) -> c1 <> Other) /\
      ((exists c, matches keywords_m2 c s) -> c2 <> Other) /\
      ((forall c, ~ matches keywords_m1 c s) -> c1 = Other) /\
      ((forall c, ~ matches keywords_m2 c s) -> c2 = Other)) /\
  (forall s',
      lower s' = lower s ->
      M1.classify_category (PStr s') = M1.classify_category (PStr s) /\
      M2.classify_category (PStr s') = M2.classify_category (PStr s)) /\
  M1.classify_category (PStr EmptyString) = Ok Other /\
  M2.classify_category (PStr EmptyString) = Ok Other /\
  M1.classify_category PNone = Ok Other /\
  M2.classify_category PNone = Ok Other.
Proof.
  split; [|split; [|repeat split]].
  - exists (table_classify keywords_m1 s), (table_classify keywords_m2 s).
    pose proof (table_classify_classified keywords_m1 s eq_refl) as H1.
    pose proof (table_classify_classified keywords_m2 s eq_refl) as H2.
    destruct (classified_other keywords_m1 s _ eq_refl H1) as [A1 B1].
    destruct (classified_other keywords_m2 s _ eq_refl H2) as [A2 B2].
    split; [apply M1_classify_table|]. split; [apply M2_classify_table|].
    repeat (split; [assumption|]). assumption.
  - intros s' E. rewrite !M1_classify_table, !M2_classify_table.
    unfold table_classify. rewrite E. split; reflexivity.
Qed.

(** Witness of [category_classifier]: "Food MART" holds keywords of two
    categories and is classified under the first of them, as is "food mart". *)
Lemma category_classifier_witness :
  lower "food mart" = lower "Food MART" /\
  M1.classify_category (PStr "food mart") = M1.classify_category (PStr "Food MART") /\
  M2.classify_category (PStr "food mart") = M2.classify_category (PStr "Food MART").
Proof.
  split; [reflexivity|].
  exact (proj1 (proj2 (category_classifier "Food MART")) "food mart" eq_refl).
Defined.

Example classify_food_mart :
  M1.classify_category (PStr "Food MART") = Ok Groceries /\
  M2.classify_category (PStr "Apollo Pharmacy") = Ok Medical /\
  M1.classify_category (PStr "Big Basket") = Ok Groceries /\
  M2.classify_category (PStr "Big Basket") = Ok Other /\
  M1.classify_category (PStr "Stationery") = Ok Other.
Proof. repeat split; reflexivity. Qed.


(** * Further properties of the two applications *)

(** ** The floor of the tolerance, on binary64 amounts *)






(** ** The coercion of amounts on binary64 amounts *)

Section Binary64_coercion.

Import B64 S64.

Variable float_of_str : string -> option spec_float.
Variable show_table : pyval -> result unit.



End Binary64_coercion.


(** On that payload every amount counts as 0, the integer that overflows
    included. *)
Example garbled_amounts_count_as_zero :
  exists v,
    B64.M2.validate N64.float_of_str N64.shown (B64.of_int 1)
      (B64.PDict S64.garbled_payload) = Ok v /\
    B64.subtotal v = B64.zero /\ B64.total_tax v = B64.zero /\
    B64.discount v = B64.zero /\ B64.status v = PASSED.
Proof.
  eexists. split; [vm_compute; reflexivity|]. repeat split.
Qed.

(** ** The two History tabs compared *)

Lemma status_of_compat (b c c' t : Q) :
  c == c' -> status_of b c t = status_of b c' t.
Proof.
  intros E.
  destruct (status_of b c' t) eqn:S'.
  - apply status_of_passed. apply status_of_passed in S'. rewrite E. exact S'.
  - apply status_of_failed. apply status_of_failed in S'. rewrite E. exact S'.
Qed.

Section Versions.

Variable float_of_str : string -> option Q.

(** X2.  On a normalised input on which milestone 1 infers no tax, the two
    History tabs agree: same subtotal, tax, calculated total and verdict. *)
Theorem versions_agree_without_inference (bill_total : Q) (raw : pyval)
    (its : list item) (tx : taxes) (disc : Q) :
  normalised raw its tx disc ->
  exists v1 v2,
    M1.validate float_of_str bill_total raw = Ok v1 /\
    M2.validate float_of_str bill_total raw = Ok v2 /\
    (tax_inferred v1 = false ->
     subtotal v1 == subtotal v2 /\ total_tax v1 == total_tax v2 /\
     calculated_total v1 == calculated_total v2 /\ status v1 = status v2).
Proof.
  intros Hn.
  destruct (M1_validate_normalised float_of_str bill_total raw its tx disc Hn)
    as [s1 [Hs1 E1]].
  destruct (M2_validate_normalised float_of_str bill_total raw its tx disc Hn)
    as [s2 [Hs2 E2]].
  eexists. eexists. split; [exact E1|]. split; [exact E2|].
  cbn [tax_inferred subtotal total_tax calculated_total status].
  destruct (infer_tax_cases bill_total s1 (itemized_tax tx))
    as [(_ & _ & _ & ->)|(_ & ->)]; cbn [fst snd]; [discriminate|].
  intros _.
  assert (Ht : itemized_tax tx
               == 0 + gst tx + cgst tx + sgst tx + igst tx + other tx)
    by (unfold itemized_tax; lra).
  assert (Hc : s1 + itemized_tax tx - disc
               == s2 + (0 + gst tx + cgst tx + sgst tx + igst tx + other tx) - disc)
    by (rewrite Hs1, Hs2, Ht; reflexivity).
  split; [rewrite Hs1, Hs2; reflexivity|]. split; [exact Ht|].
  split; [exact Hc|]. apply status_of_compat. exact Hc.
Qed.

End Versions.

(** Witness of [versions_agree_without_inference]. *)
Lemma versions_agree_without_inference_witness :
  normalised (payload tea_and_cake (gst_only 9) 0) tea_and_cake (gst_only 9) 0 /\
  exists v1 v2,
    M1.validate PyLib.float_of_str 99 (payload tea_and_cake (gst_only 9) 0)
      = Ok v1 /\
    M2.validate PyLib.float_of_str 99 (payload tea_and_cake (gst_only 9) 0)
      = Ok v2 /\
    (tax_inferred v1 = false ->
     subtotal v1 == subtotal v2 /\ total_tax v1 == total_tax v2 /\
     calculated_total v1 == calculated_total v2 /\ status v1 = status v2).
Proof.
  assert (Hn : normalised (payload tea_and_cake (gst_only 9) 0)
                 tea_and_cake (gst_only 9) 0).
  { eexists. repeat split; reflexivity. }
  split; [exact Hn|].
  exact (versions_agree_without_inference PyLib.float_of_str 99 _ _ _ _ Hn).
Defined.

(** ** Missing items, unnamed taxes, malformed amounts *)

Section Edge_cases.

Variable float_of_str : string -> option Q.

(** X4.  In milestone 1, when the payload has no items (the field is absent,
    or holds an empty list, null, 0 or any other false value), the subtotal
    is 0, the warning is shown, no tax is inferred, and the calculated total
    is the itemised tax minus the discount. *)
Theorem no_items_m1 (bill_total : Q) (d : list (string * pyval))
    (tx : taxes) (disc : Q) :
  match assoc "items" d with
  | Some v => truthy v = false
  | None => True
  end ->
  assoc "taxes" d = Some (taxes_json tx) ->
  assoc "discount" d = Some (PNum disc) ->
  exists v,
    M1.validate float_of_str bill_total (PDict d) = Ok v /\
    subtotal v = 0 /\ no_items v = true /\ tax_inferred v = false /\
    total_tax v == itemized_tax tx /\
    calculated_total v == itemized_tax tx - disc.
Proof.
  intros Hi Ht Hd. unfold M1.validate. simpl py_get. rewrite Ht, Hd.
  cbn [bind].
  assert (Hf : truthy (match assoc "items" d with
                       | Some v => v
                       | None => PList []
                       end) = false).
  { destruct (assoc "items" d); [exact Hi|reflexivity]. }
  rewrite Hf. simpl.
  unfold M1.infer_tax.
  replace (Qlt_bool 0 0) with false by reflexivity.
  rewrite andb_false_r.
  eexists. split; [reflexivity|].
  cbn [subtotal no_items tax_inferred total_tax calculated_total negb].
  unfold itemized_tax. repeat split; lra.
Qed.

(** X5.  A tax line under a name other than the five fields (so that
    [taxes] is a dict with distinct keys) counts in milestone 2, which sums
    every value of [taxes], and is ignored by milestone 1, which reads the
    five fields by name. *)
Theorem unnamed_tax_line (bill_total : Q) (its : list item) (tx : taxes)
    (disc : Q) (k : string) (x : Q) :
  ~ In k tax_names ->
  M1.validate float_of_str bill_total (payload_extra_tax its tx disc k x)
  = M1.validate float_of_str bill_total (payload its tx disc) /\
  exists v2,
    M2.validate float_of_str bill_total (payload_extra_tax its tx disc k x)
    = Ok v2 /\
    total_tax v2 == itemized_tax tx + x.
Proof.
  intros _. split.
  - unfold M1.validate, payload_extra_tax, payload. reflexivity.
  - destruct (sum_from_items (M2.price float_of_str) its
                (M2_price_item float_of_str) 0) as [q [Hq Heq]].
    unfold M2.validate, payload_extra_tax. simpl py_get. cbn [bind py_iter].
    unfold py_sum at 1. rewrite Hq. cbn [bind].
    eexists. split; [reflexivity|].
    cbn [total_tax snd]. unfold M2.safe_float.
    cbn [py_float try_except]. unfold itemized_tax. lra.
Qed.

End Edge_cases.

(** Witness of [no_items_m1]: a payload whose items are null. *)
Lemma no_items_m1_witness :
  truthy PNone = false /\
  exists v,
    M1.validate PyLib.float_of_str 50
      (PDict [("items", PNone); ("taxes", taxes_json (gst_only 5));
              ("discount", PNum 0)]) = Ok v /\
    subtotal v = 0 /\ no_items v = true /\ tax_inferred v = false /\
    total_tax v == itemized_tax (gst_only 5) /\
    calculated_total v == itemized_tax (gst_only 5) - 0.
Proof.
  split; [reflexivity|].
  exact (no_items_m1 PyLib.float_of_str 50
           [("items", PNone); ("taxes", taxes_json (gst_only 5));
            ("discount", PNum 0)]
           (gst_only 5) 0 eq_refl eq_refl eq_refl).
Defined.

(** Witness of [unnamed_tax_line]: a VAT line of 5. *)
Lemma unnamed_tax_line_witness :
  ~ In "vat" tax_names /\
  exists v2,
    M2.validate PyLib.float_of_str 95
      (payload_extra_tax tea_and_cake no_taxes 0 "vat" 5) = Ok v2 /\
    total_tax v2 == itemized_tax no_taxes + 5.
Proof.
  assert (H : ~ In "vat" tax_names).
  { simpl. intros [H|[H|[H|[H|[H|[]]]]]]; discriminate H. }
  split; [exact H|].
  exact (proj2 (unnamed_tax_line PyLib.float_of_str 95 tea_and_cake no_taxes 0
                  "vat" 5 H)).
Defined.

(** ** What an upload does to the table *)

Section Uploads.

Variable json_loads : string -> option pyval.
Variable float_of_str : string -> option Q.
Variable fromisoformat : string -> option date.

Local Abbreviation upload1 := (M1.upload json_loads float_of_str fromisoformat).
Local Abbreviation upload2 := (M2.upload json_loads float_of_str).

(** The record saved by milestone 1. *)
Lemma M1_upload_saved (t t' : table) (h : string) (response : option string) :
  upload1 t h response = (Saved, t') ->
  exists d cat cur,
    M1.analyze_receipt json_loads response = PDict d /\
    M1.classify_category (extracted_merchant (PDict d)) = Ok cat /\
    hash_present t h = false /\
    t' = {| rows := rows t ++
                    [ {| id := last_id t + 1;
                         merchant := extracted_merchant (PDict d);
                         date_col := coerce_date fromisoformat
                                       (extracted_date (PDict d));
                         total := stored_total_m1 float_of_str (PDict d);
                         currency := cur;
                         category_col := cat;
                         raw_json := PDict d;
                         file_hash := h |} ];
            last_id := (last_id t + 1)%Z |}.
Proof.
  unfold M1.upload.
  destruct (hash_present t h) eqn:Eh; [discriminate|].
  destruct (negb (truthy (M1.analyze_receipt json_loads response)));
    [discriminate|].
  rewrite M1_date_coerced.
  match goal with
  | |- context [match ?x with Ok _ => _ | Raise _ => _ end] =>
      destruct x as [t''|e] eqn:Hx
  end; [|discriminate].
  intros H. injection H as <-.
  destruct (M1.analyze_receipt json_loads response) as [| | | | |d];
    try discriminate.
  cbn [py_get bind] in Hx.
  destruct (M1.classify_category _) as [cat|] eqn:Ec; [|discriminate].
  cbn [bind] in Hx.
  apply insert_receipt_ok in Hx. destruct Hx as [_ ->].
  exists d, cat. eexists. split; [reflexivity|]. split; [exact Ec|].
  split; reflexivity.
Qed.

(** The record saved by milestone 2. *)
Lemma M2_upload_saved (t t' : table) (h : string) (response : option string) :
  upload2 t h response = (Saved, t') ->
  exists d cat cur,
    M2.analyze_receipt json_loads response = PDict d /\
    M2.classify_category (extracted_merchant (PDict d)) = Ok cat /\
    hash_present t h = false /\
    t' = {| rows := rows t ++
                    [ {| id := last_id t + 1;
                         merchant := extracted_merchant (PDict d);
                         date_col := extracted_date (PDict d);
                         total := M2.safe_float float_of_str
                                    (match assoc "total" d with
                                     | Some v => v
                                     | None => PNone
                                     end);
                         currency := cur;
                         category_col := cat;
                         raw_json := PDict d;
                         file_hash := h |} ];
            last_id := (last_id t + 1)%Z |}.
Proof.
  unfold M2.upload.
  destruct (hash_present t h) eqn:Eh; [discriminate|].
  match goal with
  | |- context [match ?x with Ok _ => _ | Raise _ => _ end] =>
      destruct x as [t''|e] eqn:Hx
  end; [|discriminate].
  intros H. injection H as <-.
  destruct (M2.analyze_receipt json_loads response) as [| | | | |d];
    try discriminate.
  cbn [py_get bind] in Hx.
  destruct (M2.classify_category _) as [cat|] eqn:Ec; [|discriminate].
  cbn [bind] in Hx.
  apply insert_receipt_ok in Hx. destruct Hx as [_ ->].
  exists d, cat. eexists. split; [reflexivity|]. split; [exact Ec|].
  split; reflexivity.
Qed.

Lemma M1_upload_unsaved (t : table) (h : string) (response : option string) :
  fst (upload1 t h response) <> Saved -> snd (upload1 t h response) = t.
Proof.
  destruct (M1_upload_effect json_loads float_of_str fromisoformat t h response)
    as [E|(r & E & _)]; [intros _; exact E|].
  rewrite E. intros H. exfalso. apply H. reflexivity.
Qed.

Lemma M2_upload_unsaved (t : table) (h : string) (response : option string) :
  fst (upload2 t h response) <> Saved -> snd (upload2 t h response) = t.
Proof.
  destruct (M2_upload_effect json_loads float_of_str t h response)
    as [E|(r & E & _)]; [intros _; exact E|].
  rewrite E. intros H. exfalso. apply H. reflexivity.
Qed.

(** X7.  An upload is all or nothing in both applications: unless it ends
    with "Receipt saved successfully" the table is unchanged (duplicate,
    failed extraction, exception); when it does, exactly one record is
    appended, with the next id, the fingerprint of the file and the extracted
    payload, and the stored records are untouched. *)
Theorem upload_all_or_nothing (t : table) (h : string)
    (response : option string) :
  (fst (upload1 t h response) <> Saved -> snd (upload1 t h response) = t) /\
  (fst (upload2 t h response) <> Saved -> snd (upload2 t h response) = t) /\
  (forall t',
      upload1 t h response = (Saved, t') ->
      exists r,
        rows t' = (rows t ++ [r])%list /\ last_id t' = (last_id t + 1)%Z /\
        id r = (last_id t + 1)%Z /\ file_hash r = h /\
        raw_json r = M1.analyze_receipt json_loads response) /\
  (forall t',
      upload2 t h response = (Saved, t') ->
      exists r,
        rows t' = (rows t ++ [r])%list /\ last_id t' = (last_id t + 1)%Z /\
        id r = (last_id t + 1)%Z /\ file_hash r = h /\
        raw_json r = M2.analyze_receipt json_loads response).
Proof.
  split; [apply M1_upload_unsaved|]. split; [apply M2_upload_unsaved|].
  split; intros t' H.
  - destruct (M1_upload_saved t t' h response H) as (d & cat & cur & Ed & _ & _ & ->).
    eexists. rewrite Ed. repeat split.
  - destruct (M2_upload_saved t t' h response H) as (d & cat & cur & Ed & _ & _ & ->).
    eexists. rewrite Ed. repeat split.
Qed.

(** X8.  The category stored with a record is always the classifier's label
    for the stored merchant, and the stored merchant is the extracted one, or
    "Unknown" when the payload has none. *)
Theorem stored_category_consistent (t : table) (h : string)
    (response : option string) :
  (forall t',
      upload1 t h response = (Saved, t') ->
      exists r,
        rows t' = (rows t ++ [r])%list /\
        merchant r = extracted_merchant (M1.analyze_receipt json_loads response) /\
        M1.classify_category (merchant r) = Ok (category_col r)) /\
  (forall t',
      upload2 t h response = (Saved, t') ->
      exists r,
        rows t' = (rows t ++ [r])%list /\
        merchant r = extracted_merchant (M2.analyze_receipt json_loads response) /\
        M2.classify_category (merchant r) = Ok (category_col r)).
Proof.
  split; intros t' H.
  - destruct (M1_upload_saved t t' h response H) as (d & cat & cur & Ed & Ec & _ & ->).
    eexists. rewrite Ed. split; [reflexivity|]. split; [reflexivity|exact Ec].
  - destruct (M2_upload_saved t t' h response H) as (d & cat & cur & Ed & Ec & _ & ->).
    eexists. rewrite Ed. split; [reflexivity|]. split; [reflexivity|exact Ec].
Qed.

End Uploads.

(** Witness of [upload_all_or_nothing]: the first upload of a receipt. *)
Lemma upload_all_or_nothing_witness :
  M1.upload PyLib.json_loads PyLib.float_of_str PyLib.fromisoformat
    empty_table sample_hash (Some good_date_text) = (Saved, one_receipt) /\
  exists r,
    rows one_receipt = (rows empty_table ++ [r])%list /\
    last_id one_receipt = (last_id empty_table + 1)%Z /\
    id r = (last_id empty_table + 1)%Z /\ file_hash r = sample_hash /\
    raw_json r = M1.analyze_receipt PyLib.json_loads (Some good_date_text).
Proof.
  assert (E : M1.upload PyLib.json_loads PyLib.float_of_str PyLib.fromisoformat
                empty_table sample_hash (Some good_date_text)
              = (Saved, one_receipt)) by reflexivity.
  split; [exact E|].
  exact (proj1 (proj2 (proj2
           (upload_all_or_nothing PyLib.json_loads PyLib.float_of_str
              PyLib.fromisoformat empty_table sample_hash
              (Some good_date_text)))) one_receipt E).
Defined.

(** Witness of [stored_category_consistent]. *)
Lemma stored_category_consistent_witness :
  M1.upload PyLib.json_loads PyLib.float_of_str PyLib.fromisoformat
    empty_table sample_hash (Some good_date_text) = (Saved, one_receipt) /\
  exists r,
    rows one_receipt = (rows empty_table ++ [r])%list /\
    merchant r = extracted_merchant
                   (M1.analyze_receipt PyLib.json_loads (Some good_date_text)) /\
    M1.classify_category (merchant r) = Ok (category_col r).
Proof.
  assert (E : M1.upload PyLib.json_loads PyLib.float_of_str PyLib.fromisoformat
                empty_table sample_hash (Some good_date_text)
              = (Saved, one_receipt)) by reflexivity.
  split; [exact E|].
  exact (proj1 (stored_category_consistent PyLib.json_loads PyLib.float_of_str
                  PyLib.fromisoformat empty_table sample_hash
                  (Some good_date_text)) one_receipt E).
Defined.

(** ** Bill ids *)

Lemma ids_increasing_append (t : table) (r : receipt) :
  ids_increasing t ->
  id r = (last_id t + 1)%Z ->
  ids_increasing {| rows := rows t ++ [r]; last_id := (last_id t + 1)%Z |}.
Proof.
  intros (Hs & Hb & H0) Hr. unfold ids_increasing. cbn [rows last_id].
  split; [|split; [|lia]].
  - rewrite map_app. cbn [map].
    revert Hs Hb. induction (rows t) as [|a l IH]; intros Hs Hb; cbn.
    + repeat constructor.
    + inversion Hs as [|x xs Hs' Hall]; subst.
      inversion Hb as [|y ys Ha Hb']; subst.
      constructor; [apply IH; assumption|].
      apply Forall_app. split; [exact Hall|].
      constructor; [lia|constructor].
  - apply Forall_app. split.
    + eapply Forall_impl; [|exact Hb]. cbn. intros a Ha. lia.
    + constructor; [lia|constructor].
Qed.

Lemma find_new_id (t : table) (r : receipt) :
  ids_increasing t ->
  id r = (last_id t + 1)%Z ->
  find (fun x => Z.eqb (id x) (id r)) (rows t ++ [r]) = Some r.
Proof.
  intros (_ & Hb & _) Hr.
  induction (rows t) as [|a l IH]; cbn.
  - rewrite Z.eqb_refl. reflexivity.
  - inversion Hb as [|y ys Ha Hb']; subst.
    replace (Z.eqb (id a) (id r)) with false by (symmetry; apply Z.eqb_neq; lia).
    apply IH. exact Hb'.
Qed.

Section Ids.

Variable json_loads : string -> option pyval.
Variable float_of_str : string -> option Q.
Variable fromisoformat : string -> option date.

Local Abbreviation upload1 := (M1.upload json_loads float_of_str fromisoformat).
Local Abbreviation upload2 := (M2.upload json_loads float_of_str).
Local Abbreviation step' := (step json_loads float_of_str fromisoformat).
Local Abbreviation run' := (run json_loads float_of_str fromisoformat).

(** One action keeps the ids increasing, never lowers the counter, and every
    row it leaves with an id up to the old counter was there before. *)
Lemma step_ids (t : table) (a : action) :
  ids_increasing t ->
  ids_increasing (step' t a) /\
  (last_id t <= last_id (step' t a))%Z /\
  (forall r, In r (rows (step' t a)) ->
             (id r <= last_id t)%Z -> In r (rows t)).
Proof.
  intros Hi. destruct a as [h resp|h resp|]; cbn [step].
  - destruct (M1_upload_effect json_loads float_of_str fromisoformat t h resp)
      as [->|(r & E & _ & _)].
    + split; [exact Hi|]. split; [lia|auto].
    + pose proof E as E'. apply M1_upload_saved in E'.
      destruct E' as (d & cat & cur & _ & _ & _ & Et).
      rewrite E in *. cbn [snd].
      injection Et as Er. apply app_inj_tail in Er. destruct Er as [_ Er].
      assert (Hid : id r = (last_id t + 1)%Z) by (rewrite Er; reflexivity).
      split; [apply ids_increasing_append; assumption|].
      cbn [rows last_id]. split; [lia|].
      intros x Hx Hle. apply in_app_or in Hx.
      destruct Hx as [Hx|[<-|[]]]; [exact Hx|lia].
  - destruct (M2_upload_effect json_loads float_of_str t h resp)
      as [->|(r & E & _ & _)].
    + split; [exact Hi|]. split; [lia|auto].
    + pose proof E as E'. apply M2_upload_saved in E'.
      destruct E' as (d & cat & cur & _ & _ & _ & Et).
      rewrite E in *. cbn [snd].
      injection Et as Er. apply app_inj_tail in Er. destruct Er as [_ Er].
      assert (Hid : id r = (last_id t + 1)%Z) by (rewrite Er; reflexivity).
      split; [apply ids_increasing_append; assumption|].
      cbn [rows last_id]. split; [lia|].
      intros x Hx Hle. apply in_app_or in Hx.
      destruct Hx as [Hx|[<-|[]]]; [exact Hx|lia].
  - destruct Hi as (_ & _ & H0). unfold delete_all, ids_increasing.
    cbn [rows last_id map]. repeat split; try constructor; try lia.
    intros r [].
Qed.

Lemma fold_step_ids (acts : list action) (t : table) :
  ids_increasing t ->
  ids_increasing (fold_left step' acts t) /\
  (last_id t <= last_id (fold_left step' acts t))%Z /\
  (forall r, In r (rows (fold_left step' acts t)) ->
             (id r <= last_id t)%Z -> In r (rows t)).
Proof.
  revert t. induction acts as [|a acts IH]; intros t Hi; cbn [fold_left].
  - split; [exact Hi|]. split; [lia|auto].
  - destruct (step_ids t a Hi) as (Hi' & Hl & Hr).
    destruct (IH (step' t a) Hi') as (Hi'' & Hl' & Hr').
    split; [exact Hi''|]. split; [lia|].
    intros r Hin Hle. apply Hr; [|exact Hle]. apply Hr'; [exact Hin|lia].
Qed.

Lemma empty_ids_increasing : ids_increasing empty_table.
Proof. unfold ids_increasing, empty_table. cbn. repeat split; try constructor; lia. Qed.

(** X9.  After any sequence of uploads (with either application) and
    clearings, the bill ids are positive, pairwise distinct and increasing in
    the order of insertion, and none exceeds the AUTOINCREMENT counter. *)
Theorem bill_ids_increasing (acts : list action) :
  ids_increasing (run' acts) /\ NoDup (map id (rows (run' acts))).
Proof.
  assert (H : ids_increasing (run' acts)).
  { apply fold_step_ids. exact empty_ids_increasing. }
  split; [exact H|].
  destruct H as (Hs & _ & _).
  induction Hs as [|a l Hs IH Hall]; constructor; [|exact IH].
  intros Hin. rewrite Forall_forall in Hall. specialize (Hall a Hin). lia.
Qed.

(** X10.  "Clear All Bills" empties the table and with it the duplicate
    check, but ids are never reused: whatever happens after a run, the
    counter does not decrease and a bill with an id up to the counter reached
    by that run is a bill that the run had stored. *)
Theorem ids_never_reused (acts more : list action) :
  (forall h, hash_present (delete_all (run' acts)) h = false) /\
  (last_id (run' acts) <= last_id (run' (acts ++ more)))%Z /\
  (forall r, In r (rows (run' (acts ++ more))) ->
             (id r <= last_id (run' acts))%Z ->
             In r (rows (run' acts))).
Proof.
  split; [reflexivity|].
  unfold run. rewrite fold_left_app.
  apply fold_step_ids. apply fold_step_ids. exact empty_ids_increasing.
Qed.


End Ids.

(** Witness of [ids_never_reused]: an upload, then a clearing and a second
    upload of the same file; the bill with id 2 is not the bill with id 1. *)
Lemma ids_never_reused_witness :
  map id (rows (run PyLib.json_loads PyLib.float_of_str PyLib.fromisoformat
                  ([Upload1 sample_hash (Some good_date_text)] ++
                   [ClearAll; Upload2 sample_hash (Some good_date_text)])))
  = [2%Z] /\
  (last_id one_receipt
   <= last_id (run PyLib.json_loads PyLib.float_of_str PyLib.fromisoformat
                 ([Upload1 sample_hash (Some good_date_text)] ++
                  [ClearAll; Upload2 sample_hash (Some good_date_text)])))%Z.
Proof.
  split; [vm_compute; reflexivity|].
  exact (proj1 (proj2
           (ids_never_reused PyLib.json_loads PyLib.float_of_str
              PyLib.fromisoformat
              [Upload1 sample_hash (Some good_date_text)]
              [ClearAll; Upload2 sample_hash (Some good_date_text)]))).
Defined.


(** ** Merchants that are not strings *)

Section Merchants.

Variable json_loads : string -> option pyval.
Variable float_of_str : string -> option Q.
Variable fromisoformat : string -> option date.

Lemma classify_non_string (m : pyval) :
  is_str m = false ->
  M1.classify_category m
  = (if truthy m then Raise AttributeError else Ok Other) /\
  M2.classify_category m
  = (if truthy m then Raise AttributeError else Ok Other).
Proof.
  intros H. unfold M1.classify_category, M2.classify_category.
  destruct m; try discriminate H; destruct (truthy _); split; reflexivity.
Qed.

Lemma classify_raises_iff (m : pyval) :
  (M1.classify_category m = Raise AttributeError <->
   truthy m = true /\ is_str m = false) /\
  (M2.classify_category m = Raise AttributeError <->
   truthy m = true /\ is_str m = false).
Proof.
  destruct (is_str m) eqn:Es.
  - destruct m; try discriminate Es.
    rewrite M1_classify_table, M2_classify_table.
    split; (split; [discriminate|intros [_ H]; discriminate H]).
  - destruct (classify_non_string m Es) as [-> ->].
    destruct (truthy m); split;
      (split; [intros H; try discriminate H; split; reflexivity
              |intros [H _]; try reflexivity; discriminate H]).
Qed.

(** X12.  [classify_category] raises (AttributeError, from [.lower()])
    exactly on the merchants that are true values but not strings, such as a
    non-zero number; an upload whose extracted merchant is such a value ends
    with that exception in both applications and stores nothing. *)
Theorem non_string_merchant (m : pyval) :
  (M1.classify_category m = Raise AttributeError <->
   truthy m = true /\ is_str m = false) /\
  (M2.classify_category m = Raise AttributeError <->
   truthy m = true /\ is_str m = false) /\
  (truthy m = true -> is_str m = false ->
   forall t h response d,
     hash_present t h = false ->
     assoc "merchant" d = Some m ->
     (M1.analyze_receipt json_loads response = PDict d ->
      M1.upload json_loads float_of_str fromisoformat t h response
      = (Crashed AttributeError, t)) /\
     (M2.analyze_receipt json_loads response = PDict d ->
      M2.upload json_loads float_of_str t h response
      = (Crashed AttributeError, t))).
Proof.
  destruct (classify_raises_iff m) as [H1 H2].
  split; [exact H1|]. split; [exact H2|].
  intros Ht Hs t h response d Hh Hm.
  assert (E1 : M1.classify_category m = Raise AttributeError)
    by (apply H1; split; assumption).
  assert (E2 : M2.classify_category m = Raise AttributeError)
    by (apply H2; split; assumption).
  split; intros Hd.
  - unfold M1.upload. rewrite Hh, Hd.
    assert (Htr : truthy (PDict d) = true).
    { destruct d; [discriminate Hm|reflexivity]. }
    rewrite Htr. cbn [negb py_get bind]. rewrite Hm. cbn [bind].
    rewrite E1. reflexivity.
  - unfold M2.upload. rewrite Hh, Hd. cbn [py_get bind]. rewrite Hm.
    cbn [bind]. rewrite E2. reflexivity.
Qed.

End Merchants.

(** Witness of [non_string_merchant]: the merchant is the number 7. *)
Lemma non_string_merchant_witness :
  truthy (PNum 7) = true /\ is_str (PNum 7) = false /\
  M2.upload PyLib.json_loads PyLib.float_of_str empty_table sample_hash
    (Some (dq "{'merchant': 7, 'total': 10}"))
  = (Crashed AttributeError, empty_table).
Proof.
  split; [reflexivity|]. split; [reflexivity|].
  refine (proj2 (proj2 (proj2 (non_string_merchant PyLib.json_loads
            PyLib.float_of_str PyLib.fromisoformat (PNum 7)))
            eq_refl eq_refl empty_table sample_hash
            (Some (dq "{'merchant': 7, 'total': 10}"))
            [("merchant", PNum 7); ("total", PNum 10)] eq_refl eq_refl) _).
  vm_compute. reflexivity.
Defined.

(** ** JSON wrapped in prose *)

Lemma find_char_app (c : ascii) (pre rest : string) :
  find_char c pre = None ->
  find_char c (pre ++ String c rest) = Some (String.length pre).
Proof.
  induction pre as [|a pre IH]; cbn.
  - intros _. rewrite Ascii.eqb_refl. reflexivity.
  - destruct (Ascii.eqb a c); [discriminate|].
    destruct (find_char c pre); [discriminate|].
    intros _. rewrite (IH eq_refl). reflexivity.
Qed.

Lemma rfind_char_app (c : ascii) (s post : string) :
  rfind_char c post = None ->
  rfind_char c (s ++ String c post) = Some (String.length s).
Proof.
  intros H. induction s as [|a s IH]; cbn.
  - rewrite H, Ascii.eqb_refl. reflexivity.
  - rewrite IH. reflexivity.
Qed.

Lemma substring_app_mid (pre body post : string) :
  substring (String.length pre) (String.length body) (pre ++ body ++ post)
  = body.
Proof.
  induction pre as [|a pre IH]; cbn.
  - induction body as [|b body IHb]; cbn.
    + destruct post; reflexivity.
    + rewrite IHb. reflexivity.
  - exact IH.
Qed.

Lemma append_assoc (a b c : string) : (a ++ b) ++ c = a ++ (b ++ c).
Proof. induction a as [|x a IH]; cbn; [reflexivity|rewrite IH; reflexivity]. Qed.

Lemma length_append (a b : string) :
  String.length (a ++ b) = (String.length a + String.length b)%nat.
Proof. induction a as [|x a IH]; cbn; [reflexivity|rewrite IH; reflexivity]. Qed.

Section Prose.

Variable json_loads : string -> option pyval.

(** X13.  [safe_json] looks only at the text from the first opening brace to
    the last closing brace: whatever prose without an opening brace precedes
    the JSON object and whatever prose without a closing brace follows it,
    the result is the decoding of the object alone ([None], respectively the
    empty dict, when the decoder rejects it). *)
Theorem safe_json_ignores_prose (pre mid post : string) :
  find_char "{" pre = None ->
  rfind_char "}" post = None ->
  M1.safe_json json_loads
    (pre ++ String "{" (mid ++ String "}" EmptyString) ++ post)
  = match json_loads (String "{" (mid ++ String "}" EmptyString)) with
    | Some v => v
    | None => PNone
    end /\
  M2.safe_json json_loads
    (pre ++ String "{" (mid ++ String "}" EmptyString) ++ post)
  = match json_loads (String "{" (mid ++ String "}" EmptyString)) with
    | Some v => v
    | None => PDict []
    end.
Proof.
  intros Hpre Hpost.
  set (body := String "{" (mid ++ String "}" EmptyString)).
  assert (Hi : find_char "{" (pre ++ body ++ post) = Some (String.length pre)).
  { unfold body. cbn [append]. apply find_char_app. exact Hpre. }
  assert (Hj : rfind_char "}" (pre ++ body ++ post)
               = Some (String.length pre + S (String.length mid))%nat).
  { replace (pre ++ body ++ post)
      with ((pre ++ String "{" mid) ++ String "}" post).
    - rewrite (rfind_char_app "}" _ post Hpost), length_append. reflexivity.
    - unfold body. rewrite append_assoc. cbn [append].
      rewrite append_assoc. reflexivity. }
  assert (Hs : slice (pre ++ body ++ post) (String.length pre)
                 (String.length pre + S (String.length mid) + 1) = body).
  { unfold slice.
    replace (String.length pre + S (String.length mid) + 1 - String.length pre)%nat
      with (String.length body).
    - apply substring_app_mid.
    - unfold body. cbn [String.length]. rewrite length_append. cbn. lia. }
  unfold M1.safe_json, M2.safe_json, str_index, str_rindex, py_json_loads.
  rewrite Hi, Hj. cbn [bind]. rewrite Hs.
  destruct (json_loads body); split; reflexivity.
Qed.

End Prose.

(** Witness of [safe_json_ignores_prose]. *)
Lemma safe_json_ignores_prose_witness :
  find_char "{" "Here is the receipt: " = None /\
  rfind_char "}" " Anything else?" = None /\
  M1.safe_json PyLib.json_loads
    ("Here is the receipt: " ++
     String "{" (dq "'total': 12.5" ++ String "}" EmptyString) ++
     " Anything else?")
  = match PyLib.json_loads
            (String "{" (dq "'total': 12.5" ++ String "}" EmptyString)) with
    | Some v => v
    | None => PNone
    end.
Proof.
  split; [reflexivity|]. split; [reflexivity|].
  exact (proj1 (safe_json_ignores_prose PyLib.json_loads
                  "Here is the receipt: " (dq "'total': 12.5")
                  " Anything else?" eq_refl eq_refl)).
Defined.

(** ** The cache of verdicts of milestone 2 *)

Lemma lookup_insert_same (vt : list validation_row) (row : validation_row) :
  lookup_validation (insert_or_replace vt row) (bill_id row) = Some row.
Proof.
  unfold lookup_validation, insert_or_replace.
  induction vt as [|a vt IH]; cbn.
  - rewrite Z.eqb_refl. reflexivity.
  - destruct (Z.eqb (bill_id a) (bill_id row)) eqn:E; cbn; [exact IH|].
    rewrite E. exact IH.
Qed.

Lemma lookup_insert_other (vt : list validation_row) (row : validation_row)
    (b : Z) :
  b <> bill_id row ->
  lookup_validation (insert_or_replace vt row) b = lookup_validation vt b.
Proof.
  intros Hb. unfold lookup_validation, insert_or_replace.
  induction vt as [|a vt IH]; cbn.
  - replace (Z.eqb (bill_id row) b) with false; [reflexivity|].
    symmetry. apply Z.eqb_neq. congruence.
  - destruct (Z.eqb (bill_id a) (bill_id row)) eqn:E; cbn.
    + apply Z.eqb_eq in E.
      replace (Z.eqb (bill_id a) b) with false; [exact IH|].
      symmetry. apply Z.eqb_neq. congruence.
    + destruct (Z.eqb (bill_id a) b); [reflexivity|exact IH].
Qed.

Lemma insert_or_replace_keys (vt : list validation_row) (row : validation_row) :
  NoDup (map bill_id vt) -> NoDup (map bill_id (insert_or_replace vt row)).
Proof.
  intros Hnd. unfold insert_or_replace. rewrite map_app. cbn [map].
  apply NoDup_app.
  - induction vt as [|a vt IH]; cbn; [constructor|].
    inversion Hnd as [|x xs Hnotin Hnd']; subst.
    destruct (negb (Z.eqb (bill_id a) (bill_id row))); cbn; [|auto].
    constructor; [|auto].
    intros Hin. apply Hnotin. apply in_map_iff in Hin.
    destruct Hin as (r & Hr & Hf). apply filter_In in Hf.
    apply in_map_iff. exists r. tauto.
  - repeat constructor. intros [].
  - intros x Hx [<-|[]]. apply in_map_iff in Hx.
    destruct Hx as (r & Hr & Hf). apply filter_In in Hf.
    destruct Hf as [_ Hf]. apply negb_true_iff, Z.eqb_neq in Hf. congruence.
Qed.

Lemma insert_or_replace_twice (vt : list validation_row) (row : validation_row) :
  insert_or_replace (insert_or_replace vt row) row = insert_or_replace vt row.
Proof.
  unfold insert_or_replace. f_equal.
  rewrite filter_app. cbn [filter]. rewrite Z.eqb_refl. cbn [negb].
  rewrite app_nil_r.
  induction vt as [|a vt IH]; cbn; [reflexivity|].
  destruct (negb (Z.eqb (bill_id a) (bill_id row))) eqn:E; cbn;
    [rewrite E, IH; reflexivity|exact IH].
Qed.

Section Verdict_cache.

Variable float_of_str : string -> option Q.

Local Abbreviation view := (view_bill float_of_str).

Lemma view_bill_shows_history (t : table) (vt : list validation_row) (b : Z) :
  fst (view t vt b) = M2.history float_of_str t b.
Proof.
  unfold view_bill, M2.history.
  destruct (rows t) as [|r0 l]; [reflexivity|].
  destruct (find _ (r0 :: l)) as [r|]; [|reflexivity].
  destruct (M2.validate _ _ _); reflexivity.
Qed.

(** What a view does to the table of verdicts. *)
Lemma view_bill_cases (t : table) (vt : list validation_row) (b : Z) :
  (exists v row,
      view t vt b = (Some (Ok v), insert_or_replace vt row) /\
      bill_id row = b /\ v_calculated_total row = calculated_total v /\
      v_status row = status v /\
      exists r, In r (rows t) /\ id r = b /\ v_total row = total r) \/
  (snd (view t vt b) = vt /\ forall v, fst (view t vt b) <> Some (Ok v)).
Proof.
  unfold view_bill.
  destruct (rows t) as [|r0 l] eqn:Er; [right; split; [reflexivity|discriminate]|].
  destruct (find _ (r0 :: l)) as [r|] eqn:Ef;
    [|right; split; [reflexivity|discriminate]].
  apply find_some in Ef. destruct Ef as [Hin Hid]. apply Z.eqb_eq in Hid.
  destruct (M2.validate _ _ _) as [v|e];
    [|right; split; [reflexivity|discriminate]].
  left. eexists. eexists. split; [reflexivity|].
  cbn. repeat split. exists r. repeat split; assumption.
Qed.

(** X14.  Opening a bill in the History tab of milestone 2 records its
    verdict under the bill id, replacing the previous one: afterwards the
    table holds for that bill exactly the total, calculated total and status
    just shown, the verdicts of the other bills are as before, and bill ids
    stay unique; a view that shows no verdict (no such bill, or an exception)
    leaves the table as it was. *)
Theorem verdict_upsert (t : table) (vt : list validation_row) (b : Z) :
  (forall v,
      fst (view t vt b) = Some (Ok v) ->
      exists row,
        lookup_validation (snd (view t vt b)) b = Some row /\
        bill_id row = b /\ v_calculated_total row = calculated_total v /\
        v_status row = status v /\
        (forall b', b' <> b ->
                    lookup_validation (snd (view t vt b)) b'
                    = lookup_validation vt b')) /\
  ((forall v, fst (view t vt b) <> Some (Ok v)) -> snd (view t vt b) = vt) /\
  (NoDup (map bill_id vt) -> NoDup (map bill_id (snd (view t vt b)))).
Proof.
  destruct (view_bill_cases t vt b)
    as [(v0 & row & E & Hb & Hc & Hs & _)|[E Hno]].
  - rewrite E. cbn [fst snd]. split; [|split].
    + intros v Hv. injection Hv as <-. exists row.
      split; [rewrite <- Hb; apply lookup_insert_same|].
      repeat (split; [assumption|]).
      intros b' Hb'. apply lookup_insert_other. congruence.
    + intros Hno. exfalso. exact (Hno v0 eq_refl).
    + apply insert_or_replace_keys.
  - split; [|split].
    + intros v Hv. exfalso. exact (Hno v Hv).
    + intros _. exact E.
    + rewrite E. auto.
Qed.

(** X15.  Re-validation is idempotent: opening the same bill again shows the
    same result and leaves the table of verdicts exactly as the first view
    left it. *)
Theorem view_bill_idempotent (t : table) (vt : list validation_row) (b : Z) :
  view t (snd (view t vt b)) b = view t vt b.
Proof.
  unfold view_bill.
  destruct (rows t) as [|r0 l]; [reflexivity|].
  destruct (find _ (r0 :: l)) as [r|]; [|reflexivity].
  destruct (M2.validate _ _ _) as [v|e]; [|reflexivity].
  cbn [snd]. rewrite insert_or_replace_twice. reflexivity.
Qed.


End Verdict_cache.

(** Witness of [verdict_upsert]: the first bill of [two_bills] is opened. *)
Lemma verdict_upsert_witness :
  exists v,
    fst (view_bill PyLib.float_of_str two_bills [] 1) = Some (Ok v) /\
    exists row,
      lookup_validation (snd (view_bill PyLib.float_of_str two_bills [] 1)) 1
      = Some row /\
      bill_id row = 1%Z /\ v_calculated_total row = calculated_total v /\
      v_status row = status v /\
      (forall b', b' <> 1%Z ->
                  lookup_validation
                    (snd (view_bill PyLib.float_of_str two_bills [] 1)) b'
                  = lookup_validation [] b').
Proof.
  eexists. split; [reflexivity|].
  exact (proj1 (verdict_upsert PyLib.float_of_str two_bills [] 1) _ eq_refl).
Defined.

(** The second bill of [two_bills] raises and leaves no verdict. *)
Example failed_view_records_nothing :
  map bill_id (view_bills PyLib.float_of_str two_bills [1; 2; 1; 3]%Z) = [1%Z] /\
  map v_status (view_bills PyLib.float_of_str two_bills [1; 2; 1; 3]%Z) = [PASSED].
Proof. split; vm_compute; reflexivity. Qed.

(** ** The Index Performance tab *)

Lemma index_status_missing (v : pyval) :
  index_status v = Missing <->
  v = PNone \/ v = PStr EmptyString \/ v = PStr "Unknown".
Proof.
  destruct v as [|b|q|s|l|d]; cbn;
    try (split; [discriminate|intros [H|[H|H]]; discriminate H]).
  - split; [auto|reflexivity].
  - destruct (String.eqb s EmptyString) eqn:E1; cbn.
    + apply String.eqb_eq in E1. subst. split; [auto|reflexivity].
    + destruct (String.eqb s "Unknown") eqn:E2.
      * apply String.eqb_eq in E2. subst. split; [auto|reflexivity].
      * apply String.eqb_neq in E1, E2.
        split; [discriminate|].
        intros [H|[H|H]]; try discriminate H; injection H as H; contradiction.
Qed.

Section Index.

Variable json_loads : string -> option pyval.
Variable float_of_str : string -> option Q.

(** X17.  For the bill that an upload of milestone 2 has just saved, the
    Index Performance tab shows the invoice number as indexed, and shows the
    date, respectively the vendor, as missing exactly when the extracted
    payload has no such field or has it null, empty or "Unknown". *)
Theorem index_of_saved_bill (t t' : table) (h : string)
    (response : option string) :
  ids_increasing t ->
  M2.upload json_loads float_of_str t h response = (Saved, t') ->
  exists d lbl_date lbl_vendor,
    M2.analyze_receipt json_loads response = PDict d /\
    index_tab t' (last_id t') = Some (Some (Indexed, lbl_date, lbl_vendor)) /\
    (lbl_date = Missing <-> not_extracted d "date") /\
    (lbl_vendor = Missing <-> not_extracted d "merchant").
Proof.
  intros Hi H.
  destruct (M2_upload_saved json_loads float_of_str t t' h response H)
    as (d & cat & cur & Ed & _ & _ & ->).
  exists d. unfold index_tab. cbn [rows last_id].
  match goal with
  | |- context [(rows t ++ [?r])%list] => set (r0 := r)
  end.
  destruct (rows t ++ [r0])%list as [|x l] eqn:El;
    [apply app_eq_nil in El; destruct El; discriminate|].
  rewrite <- El. change (last_id t + 1)%Z with (id r0).
  rewrite (find_new_id t r0 Hi eq_refl).
  eexists. eexists. split; [exact Ed|]. split; [reflexivity|].
  cbn [r0 date_col merchant extracted_date extracted_merchant].
  unfold not_extracted. rewrite !index_status_missing.
  split.
  - destruct (assoc "date" d) as [v|]; split; intuition congruence.
  - destruct (assoc "merchant" d) as [v|]; split; intuition congruence.
Qed.

End Index.

(** Witness of [index_of_saved_bill]: the refusal of the model, saved by
    milestone 2, has neither date nor vendor. *)
Lemma index_of_saved_bill_witness :
  ids_increasing empty_table /\
  M2.upload PyLib.json_loads PyLib.float_of_str empty_table sample_hash
    (Some refusal_text)
  = (Saved, {| rows := [blank_receipt 1 sample_hash]; last_id := 1 |}) /\
  exists d lbl_date lbl_vendor,
    M2.analyze_receipt PyLib.json_loads (Some refusal_text) = PDict d /\
    index_tab {| rows := [blank_receipt 1 sample_hash]; last_id := 1 |} 1
    = Some (Some (Indexed, lbl_date, lbl_vendor)) /\
    (lbl_date = Missing <-> not_extracted d "date") /\
    (lbl_vendor = Missing <-> not_extracted d "merchant").
Proof.
  assert (Hi : ids_increasing empty_table).
  { unfold ids_increasing, empty_table. cbn. repeat split; try constructor; lia. }
  assert (E : M2.upload PyLib.json_loads PyLib.float_of_str empty_table
                sample_hash (Some refusal_text)
              = (Saved, {| rows := [blank_receipt 1 sample_hash];
                           last_id := 1 |})) by reflexivity.
  split; [exact Hi|]. split; [exact E|].
  exact (index_of_saved_bill PyLib.json_loads PyLib.float_of_str empty_table
           _ sample_hash (Some refusal_text) Hi E).
Defined.

(** ** The two classifiers compared *)

Lemma matches_m2_m1 (c : category) (m : string) :
  matches keywords_m2 c m -> matches keywords_m1 c m.
Proof.
  intros (x & Hin & Ho). exists x. split; [|exact Ho].
  destruct c; cbn in *; tauto.
Qed.

Lemma classified_not_in_priority (kw : category -> list string) (m : string) :
  classified kw m Other -> forall c, ~ matches kw c m.
Proof.
  intros [(before & after & E & _)|[_ H]]; [|exact H].
  exfalso.
  assert (Hin : In Other priority).
  { rewrite E. apply in_or_app. right. left. reflexivity. }
  cbn in Hin. intuition discriminate.
Qed.

(** X18.  Milestone 1 extends the keyword sets of milestone 2, so it never
    demotes a merchant: a name that milestone 1 labels Other is labelled
    Other by milestone 2 as well, and a name that milestone 2 labels
    Groceries, the first category tested, is Groceries in milestone 1. *)
Theorem classifier_versions (s : string) :
  (M1.classify_category (PStr s) = Ok Other ->
   M2.classify_category (PStr s) = Ok Other) /\
  (M2.classify_category (PStr s) = Ok Groceries ->
   M1.classify_category (PStr s) = Ok Groceries).
Proof.
  rewrite M1_classify_table, M2_classify_table.
  pose proof (table_classify_classified keywords_m1 s eq_refl) as H1.
  pose proof (table_classify_classified keywords_m2 s eq_refl) as H2.
  split; intros H; injection H as H; f_equal.
  - rewrite H in H1.
    pose proof (classified_not_in_priority keywords_m1 s H1) as Hno.
    apply (classified_other keywords_m2 s _ eq_refl H2).
    intros c Hc. exact (Hno c (matches_m2_m1 c s Hc)).
  - rewrite H in H2.
    destruct H2 as [(before & after & _ & Hm & _)|[Hc _]]; [|discriminate Hc].
    apply matches_m2_m1, any_in_matches in Hm.
    unfold table_classify. cbn [priority find]. rewrite Hm. reflexivity.
Qed.

(** Witness of [classifier_versions]: "Reliance SMART" is Groceries for
    both. *)
Lemma classifier_versions_witness :
  M2.classify_category (PStr "Reliance SMART") = Ok Groceries /\
  M1.classify_category (PStr "Reliance SMART") = Ok Groceries.
Proof.
  split; [reflexivity|].
  exact (proj2 (classifier_versions "Reliance SMART") eq_refl).
Defined.
